(** * sstr benchmark plotting script: a shallow embedding of
      [plot_benchmarks.py] and the properties of its pipeline.

    The script reads hyperfine result files, groups the measurements per
    benchmark, pairs the "sstr" and "std" implementations of each group and
    draws three panels of grouped bars with a percentage annotation.

    Python values are embedded as follows.
    - [str] is [string]; the operators [in], [startswith], [split] and the
      ordering used by [sorted] are written out in [PyStr].
    - [float] is the kernel's binary64 [float]: same format, same rounding.
      Division raises [ZeroDivisionError] on a zero divisor, as Python's does.
    - [dict] is an association list in insertion order ([PyDict]): assigning
      to a key that is present keeps its position and replaces its value.
    - exceptions are the [Raise] case of [res].
    - a result file is given by its path and its parsed contents, taken
      well formed: a ["results"] array whose entries have a ["command"]
      string and the four numbers, read as floats (hyperfine writes them
      with a fractional part). Opening and parsing, and the errors of a
      malformed file, are outside the model.
    - the drawing calls made on a matplotlib axis are recorded, in order, in
      the list [axes]. [ax.bar] checks its arguments as the library does:
      positions and heights whose lengths do not broadcast raise
      [ValueError]. What laying out and writing the figure does is the
      answer of the rendering library and of the file system: it enters the
      model as the function [savefig], handed to the run. *)

From Stdlib Require Import List String Ascii Bool Arith ZArith Lia.
From Stdlib Require Import Permutation Sorted.
From Stdlib Require Import Floats DecimalString.
Import ListNotations.

Local Open Scope string_scope.
Local Open Scope list_scope.

(* Decimal literals such as 0.35 denote the nearest binary64 value, as in Python. *)
Set Warnings "-inexact-float".

(** ** Exceptions *)

Inductive exn : Type :=
| KeyError
| IndexError
| ZeroDivisionError
| ValueError
| OSError.

Inductive res (A : Type) : Type :=
| Ok (a : A)
| Raise (e : exn).

Arguments Ok {A} a.
Arguments Raise {A} e.

Definition bind {A B : Type} (m : res A) (k : A -> res B) : res B :=
  match m with
  | Ok a => k a
  | Raise e => Raise e
  end.

Notation "x <- m ;; k" := (bind m (fun x => k))
  (at level 61, m at next level, right associativity).

(** ** Python strings *)

Module PyStr.

(** [s.startswith(p)] *)
Fixpoint startswith (p s : string) : bool :=
  match p, s with
  | EmptyString, _ => true
  | String _ _, EmptyString => false
  | String a p', String b s' => (a =? b)%char && startswith p' s'
  end.

(** [sub in s] *)
Fixpoint contains (sub s : string) : bool :=
  startswith sub s ||
  match s with
  | EmptyString => false
  | String _ s' => contains sub s'
  end.

(** [s.split(sep, maxsplit)] for a one-character separator; [None] is
    Python's default [maxsplit = -1] (no limit). *)
Fixpoint split (sep : ascii) (maxsplit : option nat) (s : string) : list string :=
  match s with
  | EmptyString => [EmptyString]
  | String c s' =>
      let continue ms :=
        match split sep ms s' with
        | [] => [String c EmptyString]
        | p :: ps => String c p :: ps
        end in
      if (c =? sep)%char then
        match maxsplit with
        | None => EmptyString :: split sep None s'
        | Some (S n) => EmptyString :: split sep (Some n) s'
        | Some O => continue (Some O)
        end
      else continue maxsplit
  end.

(** [s.count(c)] for a one-character needle. *)
Fixpoint count (c : ascii) (s : string) : nat :=
  match s with
  | EmptyString => 0
  | String a s' => (if (a =? c)%char then 1 else 0) + count c s'
  end.

(** [l[-1]] on the list a [split] returns (never empty). *)
Definition last_part (l : list string) : string := last l EmptyString.

(** [s.rfind(c)] for a one-character needle: the last index, or -1. *)
Fixpoint rfind (c : ascii) (s : string) : Z :=
  match s with
  | EmptyString => (-1)%Z
  | String a s' =>
      let r := rfind c s' in
      if (0 <=? r)%Z then (r + 1)%Z
      else if (a =? c)%char then 0%Z else (-1)%Z
  end.

(** [s[i:]] and [s[:i]] for [0 <= i]. *)
Definition slice_from (i : Z) (s : string) : string :=
  substring (Z.to_nat i) (length s - Z.to_nat i) s.

Definition slice_to (i : Z) (s : string) : string :=
  substring 0 (Nat.min (Z.to_nat i) (length s)) s.

(** [os.path.basename(p)] (posixpath): [p[p.rfind('/') + 1:]]. *)
Definition basename (p : string) : string :=
  slice_from (rfind "/" p + 1) p.

Fixpoint all_dots (s : string) : bool :=
  match s with
  | EmptyString => true
  | String c s' => (c =? ".")%char && all_dots s'
  end.

(** [os.path.splitext(p)] (posixpath): the extension starts at the last dot
    of the last path component, leading dots of the component apart. *)
Definition splitext (p : string) : string * string :=
  let sepIndex := rfind "/" p in
  let dotIndex := rfind "." p in
  if (sepIndex <? dotIndex)%Z then
    let leading :=
      substring (Z.to_nat (sepIndex + 1))
                (Z.to_nat dotIndex - Z.to_nat (sepIndex + 1)) p in
    if all_dots leading then (p, EmptyString)
    else (slice_to dotIndex p, slice_from dotIndex p)
  else (p, EmptyString).

(** The order [sorted] uses on [str]: code point by code point, a proper
    prefix first. *)
Definition le (a b : string) : Prop := String.leb a b = true.

Fixpoint insert (x : string) (l : list string) : list string :=
  match l with
  | [] => [x]
  | y :: l' => if String.leb x y then x :: l else y :: insert x l'
  end.

(** [sorted(l)]. Two strings that compare equal are the same string, so
    the sorted list does not depend on the sorting algorithm. *)
Definition sorted (l : list string) : list string :=
  fold_right insert [] l.

End PyStr.

(** ** Python dictionaries, in insertion order *)

Module PyDict.

Section Dict.
Context {V : Type}.

Definition dict : Type := list (string * V).

(** [d[k] = v]: a key already present keeps its place. *)
Fixpoint setitem (k : string) (v : V) (d : dict) : dict :=
  match d with
  | [] => [(k, v)]
  | (k', v') :: d' =>
      if (k' =? k)%string then (k', v) :: d'
      else (k', v') :: setitem k v d'
  end.

(** [d.get(k)]; [d[k]] is [getitem], raising [KeyError] on a missing key. *)
Fixpoint get (k : string) (d : dict) : option V :=
  match d with
  | [] => None
  | (k', v') :: d' => if (k' =? k)%string then Some v' else get k d'
  end.

Definition getitem (k : string) (d : dict) : res V :=
  match get k d with
  | Some v => Ok v
  | None => Raise KeyError
  end.

(** [d.keys()], in iteration order. *)
Definition keys (d : dict) : list string := map fst d.

End Dict.

Arguments dict V : clear implicits.

End PyDict.

Import PyDict.

(** The elements of [l] not in [seen], each at its first occurrence: the
    order in which a run of assignments adds new keys to a dictionary whose
    keys are [seen]. *)
Fixpoint first_occurrences (seen l : list string) : list string :=
  match l with
  | [] => []
  | x :: l' =>
      if in_dec string_dec x seen then first_occurrences seen l'
      else x :: first_occurrences (seen ++ [x]) l'
  end.

(** ** Python floats *)

Module PyFloat.

Local Open Scope float_scope.

(** [a / b] *)
Definition truediv (a b : float) : res float :=
  if b =? 0 then Raise ZeroDivisionError else Ok (a / b).

(** [max(a, b)]: the first argument unless the second is greater. *)
Definition max (a b : float) : float :=
  if a <? b then b else a.

(** [float(n)] for a small non-negative integer. *)
Definition of_nat (n : nat) : float :=
  PrimFloat.of_uint63 (Uint63.of_Z (Z.of_nat n)).

(** The integer nearest to [m * 2^e], ties to even. *)
Definition round_half_even (m : Z) (e : Z) : Z :=
  if (0 <=? e)%Z then (m * 2 ^ e)%Z
  else
    let d := (2 ^ (- e))%Z in
    let q := (m / d)%Z in
    let r := (m mod d)%Z in
    match (2 * r ?= d)%Z with
    | Lt => q
    | Gt => (q + 1)%Z
    | Eq => if Z.even q then q else (q + 1)%Z
    end.

Definition sign_text (s : bool) : string :=
  if s then "-"%string else ""%string.

Definition decimal (n : Z) : string :=
  NilZero.string_of_uint (N.to_uint (Z.to_N n)).

(** [f"{x:.1f}"]: one digit after the point, correctly rounded. *)
Definition format_1f (x : float) : string :=
  match Prim2SF x with
  | S754_zero s => (sign_text s ++ "0.0")%string
  | S754_infinity s => (sign_text s ++ "inf")%string
  | S754_nan => "nan"%string
  | S754_finite s m e =>
      let n := round_half_even (Z.pos m * 10) e in
      (sign_text s ++ decimal (n / 10) ++ "." ++ decimal (n mod 10))%string
  end.

End PyFloat.

(** ** The data of a run *)

(** One element of a result file's ["results"] array (hyperfine's output). *)
Record measurement : Type := {
  command : string;
  mean : float;
  stddev : float;
  tmin : float;
  tmax : float
}.

(** The dictionary stored per implementation, keys ['mean'], ['stddev'],
    ['min'], ['max']. *)
Record stats : Type := {
  s_mean : float;
  s_stddev : float;
  s_min : float;
  s_max : float
}.

(** A path that [glob.glob(pattern)] returned, with the parsed contents of
    the file: [data['results']]. *)
Record result_file : Type := {
  filename : string;
  results : list measurement
}.

Definition stats_of (r : measurement) : stats :=
  {| s_mean := mean r; s_stddev := stddev r; s_min := tmin r; s_max := tmax r |}.

(** [result['command'].split('/')[-1]] *)
Definition display_name (r : measurement) : string :=
  PyStr.last_part (PyStr.split "/" None (command r)).

(** [os.path.splitext(os.path.basename(filename))[0]] *)
Definition benchmark_name (f : result_file) : string :=
  fst (PyStr.splitext (PyStr.basename (filename f))).

(** The inner loop of [load_benchmark_results]: one file's [benchmark_data]. *)
Definition benchmark_data (rs : list measurement) : dict stats :=
  fold_left (fun bd r => setitem (display_name r) (stats_of r) bd) rs [].

(** [load_benchmark_results(pattern)], on the files the pattern matched, in
    the order [glob.glob] listed them. *)
Definition load_benchmark_results (files : list result_file) : dict (dict stats) :=
  fold_left
    (fun acc f => setitem (benchmark_name f) (benchmark_data (results f)) acc)
    files [].

(** ** The plot *)

Inductive color : Type := blue | orange | green | red.

(** The calls the script makes on an axis. *)
Inductive call : Type :=
| bar (x : list float) (height : list float) (width : float)
      (label : string) (c : color) (alpha : float)
| text (x : nat) (y : float) (s : string) (c : color)
| set_title (t : string)
| set_ylabel (t : string)
| set_xticks (x : list nat)
| set_xticklabels (labels : list string)
| legend
| grid (axis : string) (linestyle : string) (alpha : float).

Definition axes : Type := list call.

(** The three lists [_plot_benchmark_group] fills. *)
Record series : Type := {
  x_labels : list string;
  sstr_means : list float;
  std_means : list float
}.

Definition empty_series : series :=
  {| x_labels := []; sstr_means := []; std_means := [] |}.

(** What a finished run leaves: the three panels, the path given to
    [savefig] and the line printed. *)
Record figure : Type := {
  panels : list axes;
  saved_to : string;
  stdout : string
}.

Section Plot.

Local Open Scope float_scope.

(** The role the [if]/[elif] of the pairing loop gives a name. *)
Inductive role : Type := Sstr | Std | Neither.

Definition classify (impl_name : string) : role :=
  if PyStr.contains "sstr" impl_name then Sstr
  else if PyStr.contains "std" impl_name then Std
  else Neither.

(** One turn of [for impl_name in results[benchmark].keys()]. *)
Definition pair_step (st : option string * option string) (impl_name : string)
  : option string * option string :=
  match classify impl_name with
  | Sstr => (Some impl_name, snd st)
  | Std => (fst st, Some impl_name)
  | Neither => st
  end.

(** [(sstr_impl, std_impl)] after the pairing loop. *)
Definition find_impls (group : dict stats) : option string * option string :=
  fold_left pair_step (keys group) (None, None).

(** Truth value of [None] or a [str]. *)
Definition truthy (o : option string) : bool :=
  match o with
  | None => false
  | Some s => negb (s =? "")%string
  end.

(** [d[k]] where [k] may be [None], which is no key of these dictionaries. *)
Definition getitem_opt {V : Type} (k : option string) (d : dict V) : res V :=
  match k with
  | Some k => getitem k d
  | None => Raise KeyError
  end.

(** [benchmark.split('_', 2)[-1]] *)
Definition label_of (benchmark : string) : string :=
  PyStr.last_part (PyStr.split "_" (Some 2%nat) benchmark).

(** One turn of [for benchmark in benchmarks]. *)
Definition collect_step (results : dict (dict stats)) (acc : series)
    (benchmark : string) : res series :=
  let labels := x_labels acc ++ [label_of benchmark] in
  group <- getitem benchmark results ;;
  let (sstr_impl, std_impl) := find_impls group in
  if truthy sstr_impl && truthy std_impl then
    s <- getitem_opt sstr_impl group ;;
    d <- getitem_opt std_impl group ;;
    Ok {| x_labels := labels;
          sstr_means := sstr_means acc ++ [s_mean s * 1000];
          std_means := std_means acc ++ [s_mean d * 1000] |}
  else
    Ok {| x_labels := labels;
          sstr_means := sstr_means acc;
          std_means := std_means acc |}.

Fixpoint collect (results : dict (dict stats)) (benchmarks : list string)
    (acc : series) : res series :=
  match benchmarks with
  | [] => Ok acc
  | b :: bs => acc' <- collect_step results acc b ;; collect results bs acc'
  end.

(** [l[i]] *)
Definition index (i : nat) (l : list float) : res float :=
  match nth_error l i with
  | Some v => Ok v
  | None => Raise IndexError
  end.

(** [((sstr_means[i] - std_means[i]) / std_means[i]) * 100] *)
Definition diff_percent (sstr_means std_means : list float) (i : nat) : res float :=
  s <- index i sstr_means ;;
  d <- index i std_means ;;
  d' <- index i std_means ;;
  q <- PyFloat.truediv (s - d) d' ;;
  Ok (q * 100).

Definition diff_color (diff : float) : color :=
  if diff <? 0 then green else red.

(** One turn of [for i in range(len(sstr_means))]: the [ax.text] call. *)
Definition annotate_at (sstr_means std_means : list float) (i : nat) : res call :=
  diff <- diff_percent sstr_means std_means i ;;
  s <- index i sstr_means ;;
  d <- index i std_means ;;
  Ok (text i (PyFloat.max s d + 0.05)
           (PyFloat.format_1f diff ++ "%")%string
           (diff_color diff)).

Fixpoint annotate (sstr_means std_means : list float) (range : list nat)
    (ax : axes) : res axes :=
  match range with
  | [] => Ok ax
  | i :: range' =>
      c <- annotate_at sstr_means std_means i ;;
      annotate sstr_means std_means range' (ax ++ [c])
  end.

(** numpy's rule for two one-dimensional arrays of lengths [n] and [m]:
    they broadcast when the lengths are equal or one of them is 1. *)
Definition broadcasts (n m : nat) : bool :=
  (n =? m)%nat || (n =? 1)%nat || (m =? 1)%nat.

(** [ax.bar(x, height, width, label=..., color=..., alpha=...)]: the
    library broadcasts the positions against the heights and raises
    [ValueError] when it cannot. *)
Definition ax_bar (ax : axes) (x height : list float) (width : float)
    (label : string) (c : color) (alpha : float) : res axes :=
  if broadcasts (List.length x) (List.length height)
  then Ok (ax ++ [bar x height width label c alpha])
  else Raise ValueError.

Definition _plot_benchmark_group (ax : axes) (results : dict (dict stats))
    (benchmarks : list string) (title : string) : res axes :=
  s <- collect results benchmarks empty_series ;;
  let x := seq 0 (List.length (x_labels s)) in
  let width := 0.35 in
  ax <- ax_bar ax (map (fun i => PyFloat.of_nat i - width / 2) x)
               (sstr_means s) width "sstr" blue 0.7 ;;
  ax <- ax_bar ax (map (fun i => PyFloat.of_nat i + width / 2) x)
               (std_means s) width "std" orange 0.7 ;;
  ax <- annotate (sstr_means s) (std_means s)
                 (seq 0 (List.length (sstr_means s))) ax ;;
  Ok (ax ++ [set_title title;
             set_ylabel "Mean execution time (ms)";
             set_xticks x;
             set_xticklabels (x_labels s);
             legend;
             grid "y" "--" 0.7]).

(** [benchmarks = sorted(results.keys())] and the three comprehensions. *)
Definition group_benchmarks (results : dict (dict stats))
  : list string * list string * list string :=
  let benchmarks := PyStr.sorted (keys results) in
  (filter (PyStr.startswith "results_copy") benchmarks,
   filter (PyStr.startswith "results_append") benchmarks,
   filter (PyStr.startswith "results_format") benchmarks).

(** [savefig panels path] is the exception, if any, that
    [plt.tight_layout()] and [plt.savefig(path)] raise for the figure made
    of [panels]; the line is printed only after they return. *)
Definition create_comparison_plot (savefig : list axes -> string -> option exn)
    (results : dict (dict stats)) (output_filename : string) : res figure :=
  let '(copy_benchmarks, append_benchmarks, format_benchmarks) :=
    group_benchmarks results in
  a0 <- _plot_benchmark_group [] results copy_benchmarks
          "String Copy Performance" ;;
  a1 <- _plot_benchmark_group [] results append_benchmarks
          "String Append Performance" ;;
  a2 <- _plot_benchmark_group [] results format_benchmarks
          "String Format Performance" ;;
  match savefig [a0; a1; a2] output_filename with
  | Some e => Raise e
  | None =>
      Ok {| panels := [a0; a1; a2];
            saved_to := output_filename;
            stdout := ("Plot saved to " ++ output_filename)%string |}
  end.

End Plot.

(** ** Vocabulary of the statements *)

(** The two tests of the pairing loop, as the [if]/[elif] applies them. *)
Definition is_sstr (impl_name : string) : bool :=
  PyStr.contains "sstr" impl_name.

Definition is_std (impl_name : string) : bool :=
  negb (PyStr.contains "sstr" impl_name) && PyStr.contains "std" impl_name.

(** The display name of the latest entry of a file's results sequence whose
    display name passes [test]. *)
Definition latest_qualifying (test : string -> bool) (rs : list measurement)
  : option string :=
  option_map display_name (find (fun r => test (display_name r)) (rev rs)).

(** [label] is everything after the second ['_'] of [name]. *)
Definition after_second_underscore (name label : string) : Prop :=
  exists a b : string,
    PyStr.count "_" a = 0 /\ PyStr.count "_" b = 0 /\
    name = (a ++ "_" ++ b ++ "_" ++ label)%string.

(** The two bar heights (milliseconds) a group adds to the series: those of
    the names the pairing loop chose, when it chose both. *)
Definition group_pair (group : dict stats) : option (float * float) :=
  match find_impls group with
  | (Some sstr_impl, Some std_impl) =>
      match get sstr_impl group, get std_impl group with
      | Some s, Some d => Some (s_mean s * 1000, s_mean d * 1000)%float
      | _, _ => None
      end
  | _ => None
  end.

(** The heights of the groups of [benchmarks] that are paired, in order. *)
Definition retained (results : dict (dict stats)) (benchmarks : list string)
  : list (float * float) :=
  flat_map
    (fun b =>
       match get b results with
       | Some group =>
           match group_pair group with Some p => [p] | None => [] end
       | None => []
       end)
    benchmarks.

(** The [ax.text] calls among the calls made on an axis. *)
Definition texts (ax : axes) : list call :=
  filter (fun c => match c with text _ _ _ _ => true | _ => false end) ax.

(** The [ax.text] call of cluster [i], whose two heights are [p]. *)
Definition annotation (i : nat) (p : float * float) : call :=
  let (s, d) := p in
  let diff := ((s - d) / d * 100)%float in
  text i (PyFloat.max s d + 0.05)%float
       (PyFloat.format_1f diff ++ "%")%string
       (diff_color diff).

(** The calls of a panel that draws every cluster of [ps]. *)
Definition drawn_panel (title : string) (labels : list string)
    (ps : list (float * float)) : axes :=
  let x := seq 0 (List.length labels) in
  [bar (map (fun i => PyFloat.of_nat i - 0.35 / 2)%float x)
       (map fst ps) 0.35%float "sstr" blue 0.7%float;
   bar (map (fun i => PyFloat.of_nat i + 0.35 / 2)%float x)
       (map snd ps) 0.35%float "std" orange 0.7%float]
  ++ map (fun i => annotation i (nth i ps (0, 0)%float)) (seq 0 (List.length ps))
  ++ [set_title title;
      set_ylabel "Mean execution time (ms)";
      set_xticks x;
      set_xticklabels labels;
      legend;
      grid "y" "--" 0.7%float].

Definition nonzero_std (p : float * float) : bool :=
  negb (snd p =? 0)%float.

(** ** Inputs used in the statements *)

Definition entry (c : string) (x : float) : measurement :=
  {| command := c; mean := x; stddev := 0; tmin := x; tmax := x |}.

(** sstr mean 0.0010 s, std mean 0.0020 s. *)
Definition file_sstr_faster : result_file :=
  {| filename := "results_copy_small.json";
     results := [entry "./build/sstr_copy_small" 0.0010;
                 entry "./build/std_copy_small" 0.0020] |}.

(** The two values swapped. *)
Definition file_sstr_slower : result_file :=
  {| filename := "results_copy_small.json";
     results := [entry "./build/sstr_copy_small" 0.0020;
                 entry "./build/std_copy_small" 0.0010] |}.

(** A group with no [std]-named entry. *)
Definition file_sstr_only : result_file :=
  {| filename := "results_copy_small.json";
     results := [entry "./build/sstr_copy_small" 0.0010] |}.

(** A second group, for the append panel. *)
Definition file_append : result_file :=
  {| filename := "out/results_append_big.json";
     results := [entry "./build/sstr_append_big" 0.004;
                 entry "./build/std_append_big" 0.003] |}.

(** A group whose std-matched mean is 0.0. *)
Definition file_zero_std : result_file :=
  {| filename := "results_copy_small.json";
     results := [entry "./build/sstr_copy_small" 0.0010;
                 entry "./build/std_copy_small" 0] |}.

(** A file that lists [sstr_a] again after [sstr_b]. *)
Definition relisted : list measurement :=
  [entry "./build/sstr_a" 0.001; entry "./build/sstr_b" 0.002;
   entry "./build/sstr_a" 0.003; entry "./build/std_x" 0.004].

(** The outcome of a panel whose benchmarks are keys of the results, read
    off the two lengths and the std heights. *)
Definition panel_outcome (title : string) (labels : list string)
    (ps : list (float * float)) : res axes :=
  if broadcasts (List.length labels) (List.length ps) then
    if forallb nonzero_std ps then Ok (drawn_panel title labels ps)
    else Raise ZeroDivisionError
  else Raise ValueError.

(** A [savefig] that succeeds, and one that cannot write. *)
Definition savefig_ok (panels : list axes) (path : string) : option exn := None.

Definition savefig_fails (panels : list axes) (path : string) : option exn :=
  Some OSError.

(** Entries whose four statistics all differ. *)
Definition sstr_first : measurement :=
  {| command := "./a/sstr_x"; mean := 0.001; stddev := 0.0001;
     tmin := 0.0009; tmax := 0.0012 |}.

Definition sstr_second : measurement :=
  {| command := "./b/sstr_x"; mean := 0.002; stddev := 0.0002;
     tmin := 0.0018; tmax := 0.0025 |}.

Definition std_only : measurement :=
  {| command := "./b/std_x"; mean := 0.003; stddev := 0.0003;
     tmin := 0.0027; tmax := 0.0035 |}.

(** Three copy groups, the middle one without a std entry. *)
Definition files_mixed : list result_file :=
  [{| filename := "results_copy_a.json";
      results := [entry "./build/sstr_copy_a" 0.001;
                  entry "./build/std_copy_a" 0.002] |};
   {| filename := "results_copy_b.json";
      results := [entry "./build/sstr_copy_b" 0.001] |};
   {| filename := "results_copy_c.json";
      results := [entry "./build/sstr_copy_c" 0.001;
                  entry "./build/std_copy_c" 0] |}].

(** Two files with the same group name, listed one after the other. *)
Definition files_same_stem : list result_file :=
  [{| filename := "a/results_copy_x.json"; results := [sstr_first] |};
   {| filename := "b/results_copy_x.json";
      results := [sstr_first; sstr_second; std_only] |}].

(** Five groups, listed out of order, one of them outside the categories. *)
Definition results_five : dict (dict stats) :=
  [("results_format_large"%string, []); ("results_other_x"%string, []);
   ("results_copy_small"%string, []); ("results_append_medium"%string, []);
   ("results_copy_big"%string, [])].

(** ** The entry point *)

(** The [__main__] block, on the files that ["results_*.json"] matched. *)
Definition main (savefig : list axes -> string -> option exn)
    (files : list result_file) : res figure :=
  create_comparison_plot savefig (load_benchmark_results files)
    "benchmark_results.png".

(** The calls of a panel with no benchmark. *)
Definition empty_panel (title : string) : axes :=
  [bar [] [] 0.35%float "sstr" blue 0.7%float;
   bar [] [] 0.35%float "std" orange 0.7%float;
   set_title title;
   set_ylabel "Mean execution time (ms)";
   set_xticks [];
   set_xticklabels [];
   legend;
   grid "y" "--" 0.7%float].

(** A group outside the three categories. *)
Definition file_other : result_file :=
  {| filename := "results_other_x.json";
     results := [entry "./build/sstr_other_x" 0.001;
                 entry "./build/std_other_x" 0] |}.

(** * Properties *)

(** ** Strings *)

Section StrFacts.

Import PyStr.
Local Open Scope string_scope.

Lemma startswith_iff (p s : string) :
  startswith p s = true <-> exists r, s = p ++ r.
Proof.
  revert s; induction p as [|a p IH]; intros s; simpl.
  - split; [intros _; now exists s | reflexivity].
  - destruct s as [|b s].
    + split; [discriminate | intros [r Hr]; discriminate].
    + rewrite andb_true_iff, IH, Ascii.eqb_eq. split.
      * intros [-> [r ->]]. now exists r.
      * intros [r Hr]. injection Hr as -> ->. split; [reflexivity | now exists r].
Qed.

Lemma contains_iff (sub s : string) :
  contains sub s = true <-> exists pre post, s = pre ++ sub ++ post.
Proof.
  induction s as [|c s IH].
  - simpl. rewrite orb_false_r, startswith_iff. split.
    + intros [r Hr]. now exists "", r.
    + intros [pre [post H]]. destruct pre; [now exists post | discriminate].
  - cbn [contains]. rewrite orb_true_iff, IH, startswith_iff. split.
    + intros [[r Hr] | [pre [post H]]].
      * now exists "", r.
      * exists (String c pre), post. simpl. now rewrite H.
    + intros [pre [post H]]. destruct pre as [|a pre]; simpl in H.
      * left. now exists post.
      * right. injection H as _ H. now exists pre, post.
Qed.

Lemma split_not_nil (sep : ascii) (ms : option nat) (s : string) :
  split sep ms s <> [].
Proof.
  revert ms; induction s as [|c s IH]; intros ms; simpl; [discriminate|].
  destruct (c =? sep)%char.
  - destruct ms as [[|n]|]; try discriminate.
    destruct (split sep (Some 0) s); discriminate.
  - destruct (split sep ms s); discriminate.
Qed.

Lemma split_no_sep (sep : ascii) (ms : option nat) (s : string) :
  count sep s = 0 -> split sep ms s = [s].
Proof.
  induction s as [|c s IH]; simpl; [reflexivity|].
  destruct (c =? sep)%char; [discriminate|].
  intros H. now rewrite IH.
Qed.

Lemma split_zero (sep : ascii) (s : string) :
  split sep (Some 0) s = [s].
Proof.
  induction s as [|c s IH]; simpl; [reflexivity|].
  rewrite IH. now destruct (c =? sep)%char.
Qed.

Lemma split_at_sep (sep : ascii) (n : nat) (a r : string) :
  count sep a = 0 ->
  split sep (Some (S n)) (a ++ String sep r) = a :: split sep (Some n) r.
Proof.
  induction a as [|c a IH]; simpl.
  - intros _. now rewrite Ascii.eqb_refl.
  - destruct (c =? sep)%char; [discriminate|].
    intros H. now rewrite IH.
Qed.

(** Joining the parts with the separator gives the string back. *)
Lemma split_join (sep : ascii) (ms : option nat) (s : string) :
  String.concat (String sep "") (split sep ms s) = s.
Proof.
  revert ms; induction s as [|c s IH]; intros ms; [reflexivity|].
  assert (K : forall ms',
    String.concat (String sep "")
      match split sep ms' s with
      | [] => [String c ""]
      | p :: ps => String c p :: ps
      end = String c s).
  { intros ms'. specialize (IH ms').
    destruct (split sep ms' s) as [|p ps] eqn:E.
    - now apply split_not_nil in E.
    - rewrite <- IH. simpl. now destruct ps. }
  simpl. destruct (c =? sep)%char eqn:Ec.
  - apply Ascii.eqb_eq in Ec. subst c.
    destruct ms as [[|n]|].
    + apply K.
    + specialize (IH (Some n)). simpl.
      destruct (split sep (Some n) s) eqn:E; [now apply split_not_nil in E|].
      now rewrite IH.
    + specialize (IH None). simpl.
      destruct (split sep None s) eqn:E; [now apply split_not_nil in E|].
      now rewrite IH.
  - apply K.
Qed.

Lemma split_length (sep : ascii) (n : nat) (s : string) :
  List.length (split sep (Some n) s) <= S n.
Proof.
  revert n; induction s as [|c s IH]; intros n; simpl; [lia|].
  assert (K : forall k,
    List.length match split sep (Some k) s with
           | [] => [String c ""]
           | p :: ps => String c p :: ps
           end <= S k).
  { intros k. specialize (IH k).
    destruct (split sep (Some k) s); simpl in *; lia. }
  destruct (c =? sep)%char.
  - destruct n as [|n]; [apply K|]. simpl. specialize (IH n). lia.
  - apply K.
Qed.

Lemma count_app (c : ascii) (a b : string) :
  count c (a ++ b) = count c a + count c b.
Proof.
  induction a as [|x a IH]; simpl; [reflexivity|]. rewrite IH. lia.
Qed.

Lemma split_off_first (sep : ascii) (s : string) :
  1 <= count sep s ->
  exists a r, count sep a = 0 /\ s = a ++ String sep r /\
              count sep s = S (count sep r).
Proof.
  induction s as [|c s IH]; simpl; [lia|].
  destruct (c =? sep)%char eqn:E.
  - apply Ascii.eqb_eq in E. subst c. intros _. now exists "", s.
  - simpl. intros H. destruct (IH H) as [a [r [Ha [Hs Hc]]]].
    exists (String c a), r. simpl. rewrite E, Ha, Hc. subst s. auto.
Qed.

Lemma compare_not_gt_trans (s1 s2 s3 : string) :
  String.compare s1 s2 <> Gt -> String.compare s2 s3 <> Gt ->
  String.compare s1 s3 <> Gt.
Proof.
  revert s2 s3; induction s1 as [|a s1 IH]; intros [|b s2] [|c s3]; simpl;
    try congruence.
  unfold Ascii.compare.
  destruct (N.compare_spec (N_of_ascii a) (N_of_ascii b)) as [Hab|Hab|Hab];
    destruct (N.compare_spec (N_of_ascii b) (N_of_ascii c)) as [Hbc|Hbc|Hbc];
    destruct (N.compare_spec (N_of_ascii a) (N_of_ascii c)) as [Hac|Hac|Hac];
    try congruence; try lia.
  apply IH.
Qed.

Lemma le_trans (a b c : string) : le a b -> le b c -> le a c.
Proof.
  unfold le, String.leb. intros Hab Hbc.
  assert (H := compare_not_gt_trans a b c).
  destruct (String.compare a b); try discriminate;
    destruct (String.compare b c); try discriminate;
    destruct (String.compare a c); try reflexivity;
    exfalso; apply H; congruence.
Qed.

Lemma le_total (a b : string) : le a b \/ le b a.
Proof. apply String.leb_total. Qed.

Lemma insert_perm (x : string) (l : list string) :
  Permutation (insert x l) (x :: l).
Proof.
  induction l as [|y l IH]; simpl; [reflexivity|].
  destruct (String.leb x y); [reflexivity|].
  rewrite IH. apply perm_swap.
Qed.

Lemma sorted_perm (l : list string) : Permutation (sorted l) l.
Proof.
  induction l as [|x l IH]; simpl; [constructor|].
  rewrite insert_perm. now constructor.
Qed.

Lemma insert_sorted (x : string) (l : list string) :
  StronglySorted le l -> StronglySorted le (insert x l).
Proof.
  induction 1 as [|y l Hl IH Hy]; simpl.
  - repeat constructor.
  - destruct (String.leb x y) eqn:E.
    + constructor; [now constructor|].
      constructor; [exact E|].
      eapply Forall_impl; [|exact Hy].
      intros z Hz. eapply le_trans; [exact E | exact Hz].
    + constructor; [exact IH|].
      eapply Permutation_Forall; [symmetry; apply insert_perm|].
      constructor; [|exact Hy].
      destruct (le_total x y) as [H|H]; [unfold le in H; congruence | exact H].
Qed.

Lemma sorted_sorted (l : list string) : StronglySorted le (sorted l).
Proof.
  induction l as [|x l IH]; simpl; [constructor | now apply insert_sorted].
Qed.

Lemma filter_sorted (f : string -> bool) (l : list string) :
  StronglySorted le l -> StronglySorted le (filter f l).
Proof.
  induction 1 as [|y l Hl IH Hy]; simpl; [constructor|].
  destruct (f y); [|exact IH].
  constructor; [exact IH|].
  apply Forall_forall. intros z Hz. apply filter_In in Hz.
  rewrite Forall_forall in Hy. now apply Hy.
Qed.

Lemma filter_perm {A : Type} (f : A -> bool) (l l' : list A) :
  Permutation l l' -> Permutation (filter f l) (filter f l').
Proof.
  induction 1 as [|x l l' _ IH|x y l|l l' l'' _ IH1 _ IH2]; simpl.
  - constructor.
  - destruct (f x); [now constructor | exact IH].
  - destruct (f x), (f y); try reflexivity. apply perm_swap.
  - now transitivity (filter f l').
Qed.

(** A list has one sorted arrangement. *)
Lemma sorted_unique (l1 l2 : list string) :
  StronglySorted le l1 -> StronglySorted le l2 -> Permutation l1 l2 ->
  l1 = l2.
Proof.
  intros H1. revert l2. induction H1 as [|a l1 Hl1 IH Ha]; intros l2 H2 Hp.
  - apply Permutation_nil in Hp. now subst.
  - destruct H2 as [|b l2 Hl2 Hb].
    + symmetry in Hp. now apply Permutation_nil in Hp.
    + assert (Hab : a = b).
      { rewrite Forall_forall in Ha, Hb.
        assert (Hb_in : In b (a :: l1)).
        { eapply Permutation_in; [symmetry; exact Hp | now left]. }
        assert (Ha_in : In a (b :: l2)).
        { eapply Permutation_in; [exact Hp | now left]. }
        destruct Hb_in as [E|Hb_in]; [exact E|].
        destruct Ha_in as [E|Ha_in]; [now symmetry|].
        apply String.leb_antisym; [now apply Ha | now apply Hb]. }
      subst b. f_equal. apply IH; [exact Hl2|].
      now apply Permutation_cons_inv in Hp.
Qed.

(** One more name, rejected by the filter, leaves the filtered sorted list
    as it was. *)
Lemma filter_sorted_snoc (f : string -> bool) (l : list string) (x : string) :
  f x = false -> filter f (sorted (l ++ [x])) = filter f (sorted l).
Proof.
  intros Hx. apply sorted_unique.
  - apply filter_sorted, sorted_sorted.
  - apply filter_sorted, sorted_sorted.
  - transitivity (filter f (l ++ [x])).
    + apply filter_perm, sorted_perm.
    + rewrite filter_app. simpl. rewrite Hx, app_nil_r.
      symmetry. apply filter_perm, sorted_perm.
Qed.

End StrFacts.

(** ** Dictionaries *)

Section DictFacts.

Context {V : Type}.
Implicit Types (d : dict V) (k : string) (v : V).

Lemma get_setitem k k' v d :
  get k (setitem k' v d) = if (k' =? k)%string then Some v else get k d.
Proof.
  induction d as [|[k0 v0] d IH]; simpl.
  - reflexivity.
  - destruct (k0 =? k')%string eqn:E0; simpl.
    + apply String.eqb_eq in E0. subst k0.
      now destruct (k' =? k)%string.
    + rewrite IH. destruct (k0 =? k)%string eqn:E1; [|reflexivity].
      apply String.eqb_eq in E1. subst k0. now rewrite String.eqb_sym, E0.
Qed.

Lemma keys_setitem_in k v d :
  In k (keys d) -> keys (setitem k v d) = keys d.
Proof.
  induction d as [|[k0 v0] d IH]; simpl; [tauto|].
  destruct (k0 =? k)%string eqn:E; [reflexivity|].
  intros [H|H]; [apply String.eqb_neq in E; congruence|].
  simpl. f_equal. now apply IH.
Qed.

Lemma keys_setitem_notin k v d :
  ~ In k (keys d) -> keys (setitem k v d) = keys d ++ [k].
Proof.
  induction d as [|[k0 v0] d IH]; simpl; [reflexivity|].
  intros H. destruct (k0 =? k)%string eqn:E.
  - apply String.eqb_eq in E. tauto.
  - simpl. f_equal. apply IH. tauto.
Qed.

Lemma keys_setitem_nodup k v d :
  NoDup (keys d) -> NoDup (keys (setitem k v d)).
Proof.
  intros H. destruct (in_dec string_dec k (keys d)) as [Hin|Hin].
  - now rewrite keys_setitem_in.
  - rewrite keys_setitem_notin by exact Hin.
    apply NoDup_app; [exact H | repeat constructor; simpl; tauto |].
    intros x Hx [<-|[]]. tauto.
Qed.

Lemma get_some_in k d :
  In k (keys d) <-> exists v, get k d = Some v.
Proof.
  induction d as [|[k0 v0] d IH]; simpl.
  - split; [tauto | intros [v H]; discriminate].
  - destruct (k0 =? k)%string eqn:E.
    + apply String.eqb_eq in E. split; [now exists v0 | now left].
    + apply String.eqb_neq in E. rewrite <- IH. tauto.
Qed.

Lemma getitem_in k d :
  In k (keys d) -> exists v, get k d = Some v /\ getitem k d = Ok v.
Proof.
  intros H. apply get_some_in in H as [v Hv]. exists v.
  unfold getitem. now rewrite Hv.
Qed.

End DictFacts.

(** ** Loading *)

Section LoadFacts.

Lemma find_app_last {A : Type} (f : A -> bool) (l : list A) (a : A) :
  find f (l ++ [a]) =
  match find f l with
  | Some x => Some x
  | None => if f a then Some a else None
  end.
Proof.
  induction l as [|x l IH]; simpl; [reflexivity|].
  now destruct (f x).
Qed.

Lemma find_app_first_none {A : Type} (f : A -> bool) (l l' : list A) :
  (forall a, In a l -> f a = false) -> find f (l ++ l') = find f l'.
Proof.
  induction l as [|x l IH]; simpl; intros H; [reflexivity|].
  rewrite (H x) by now left. apply IH. intros a Ha. apply H. now right.
Qed.

(** A fold of [setitem] holds, for each key, the value of the last element
    that wrote it. *)
Lemma get_fold_setitem {A V : Type} (key : A -> string) (val : A -> V)
    (l : list A) (acc : dict V) (k : string) :
  get k (fold_left (fun d a => setitem (key a) (val a) d) l acc) =
  match find (fun a => (key a =? k)%string) (rev l) with
  | Some a => Some (val a)
  | None => get k acc
  end.
Proof.
  revert acc. induction l as [|a l IH]; intros acc; simpl; [reflexivity|].
  rewrite IH, find_app_last.
  destruct (find _ (rev l)); [reflexivity|].
  rewrite get_setitem. now destruct (key a =? k)%string.
Qed.

Lemma keys_fold_setitem_nodup {A V : Type} (key : A -> string) (val : A -> V)
    (l : list A) (acc : dict V) :
  NoDup (keys acc) ->
  NoDup (keys (fold_left (fun d a => setitem (key a) (val a) d) l acc)).
Proof.
  revert acc. induction l as [|a l IH]; intros acc H; simpl; [exact H|].
  apply IH. now apply keys_setitem_nodup.
Qed.

(** When the keys written are pairwise distinct and new, they are appended
    in the order written. *)
Lemma keys_fold_setitem_distinct {A V : Type} (key : A -> string) (val : A -> V)
    (l : list A) (acc : dict V) :
  NoDup (keys acc ++ map key l) ->
  keys (fold_left (fun d a => setitem (key a) (val a) d) l acc) =
  keys acc ++ map key l.
Proof.
  revert acc. induction l as [|a l IH]; intros acc H; simpl.
  - now rewrite app_nil_r.
  - assert (Hn : ~ In (key a) (keys acc)).
    { intros Hin. simpl in H. apply NoDup_remove_2 in H. apply H.
      apply in_or_app. now left. }
    rewrite IH; rewrite keys_setitem_notin by exact Hn.
    + now rewrite <- app_assoc.
    + rewrite <- app_assoc. exact H.
Qed.

(** In general a key stays where it was first written: the keys are the
    names written, each at its first occurrence. *)
Lemma keys_fold_setitem {A V : Type} (key : A -> string) (val : A -> V)
    (l : list A) (acc : dict V) :
  keys (fold_left (fun d a => setitem (key a) (val a) d) l acc) =
  keys acc ++ first_occurrences (keys acc) (map key l).
Proof.
  revert acc. induction l as [|a l IH]; intros acc; simpl.
  - now rewrite app_nil_r.
  - rewrite IH. destruct (in_dec string_dec (key a) (keys acc)) as [Hin|Hin].
    + now rewrite keys_setitem_in.
    + rewrite keys_setitem_notin by exact Hin. now rewrite <- app_assoc.
Qed.

Lemma get_fold_setitem_in {A V : Type} (key : A -> string) (val : A -> V)
    (l : list A) (a : A) :
  NoDup (map key l) -> In a l ->
  get (key a) (fold_left (fun d x => setitem (key x) (val x) d) l []) =
  Some (val a).
Proof.
  intros Hnd Hin. rewrite get_fold_setitem.
  destruct (find _ (rev l)) as [b|] eqn:E.
  - apply find_some in E as [Hb Hk]. apply in_rev in Hb.
    apply String.eqb_eq in Hk. f_equal. f_equal.
    clear - Hnd Hin Hb Hk. induction l as [|x l IH]; [contradiction|].
    simpl in Hnd. inversion Hnd as [|? ? Hx Hl]; subst.
    destruct Hin as [->|Hin], Hb as [->|Hb]; auto.
    + exfalso. apply Hx. rewrite <- Hk. now apply in_map.
    + exfalso. apply Hx. rewrite Hk. now apply in_map.
  - assert (H := find_none _ _ E a). simpl in H.
    rewrite String.eqb_refl in H. discriminate H. now apply -> in_rev.
Qed.

Lemma get_fold_setitem_none {A V : Type} (key : A -> string) (val : A -> V)
    (l : list A) (k : string) :
  (forall a, In a l -> key a <> k) ->
  get k (fold_left (fun d x => setitem (key x) (val x) d) l []) = None.
Proof.
  intros H. rewrite get_fold_setitem.
  destruct (find _ (rev l)) as [b|] eqn:E; [|reflexivity].
  apply find_some in E as [Hb Hk]. apply in_rev in Hb.
  apply String.eqb_eq in Hk. now apply H in Hb.
Qed.

(** C6. Result files with pairwise distinct name stems load into a
    mapping with one key per file, the file's stem, holding that file's
    group; the mapping (keys and values) is the same whatever the order in
    which the files were listed. *)
Theorem load_distinct_stems (files : list result_file) :
  NoDup (map benchmark_name files) ->
  let r := load_benchmark_results files in
  List.length (keys r) = List.length files /\
  keys r = map benchmark_name files /\
  (forall f, In f files ->
     get (benchmark_name f) r = Some (benchmark_data (results f))) /\
  (forall files', Permutation files files' ->
     let r' := load_benchmark_results files' in
     List.length (keys r') = List.length files /\
     Permutation (keys r') (keys r) /\
     forall k, get k r' = get k r).
Proof.
  intros Hnd r.
  assert (Hkeys : forall l, NoDup (map benchmark_name l) ->
            keys (load_benchmark_results l) = map benchmark_name l).
  { intros l Hl. unfold load_benchmark_results.
    now rewrite keys_fold_setitem_distinct. }
  assert (Hget : forall l f, NoDup (map benchmark_name l) -> In f l ->
            get (benchmark_name f) (load_benchmark_results l) =
            Some (benchmark_data (results f))).
  { intros l f Hl Hf. unfold load_benchmark_results.
    now apply (get_fold_setitem_in benchmark_name
                 (fun f => benchmark_data (results f))). }
  subst r. repeat split.
  - now rewrite Hkeys, length_map.
  - now apply Hkeys.
  - intros f Hf. now apply Hget.
  - rewrite Hkeys, length_map.
    + symmetry. now apply Permutation_length.
    + eapply Permutation_NoDup; [|exact Hnd]. now apply Permutation_map.
  - rewrite !Hkeys; trivial.
    + symmetry. now apply Permutation_map.
    + eapply Permutation_NoDup; [|exact Hnd]. now apply Permutation_map.
  - intros k.
    assert (Hnd' : NoDup (map benchmark_name files')).
    { eapply Permutation_NoDup; [|exact Hnd]. now apply Permutation_map. }
    destruct (find (fun f => (benchmark_name f =? k)%string) files)
      as [f|] eqn:E.
    + apply find_some in E as [Hf Hk]. apply String.eqb_eq in Hk. subst k.
      rewrite (Hget files f), (Hget files' f); trivial.
      eapply Permutation_in; eassumption.
    + assert (Hno : forall a, In a files -> benchmark_name a <> k).
      { intros a Ha. apply String.eqb_neq. exact (find_none _ _ E a Ha). }
      unfold load_benchmark_results.
      rewrite !get_fold_setitem_none; trivial.
      intros a Ha. apply Hno. eapply Permutation_in; [|exact Ha].
      now symmetry.
Qed.

(** C9. When several entries of a file have the same display name, the
    group holds that name once, with the four statistics of the last such
    entry: its mean, its standard deviation, its minimum and its maximum. *)
Theorem benchmark_data_last_wins (pre post : list measurement) (e : measurement) :
  (forall r, In r post -> display_name r <> display_name e) ->
  let group := benchmark_data (pre ++ e :: post) in
  get (display_name e) group =
    Some {| s_mean := mean e; s_stddev := stddev e;
            s_min := tmin e; s_max := tmax e |} /\
  NoDup (keys group) /\
  count_occ string_dec (keys group) (display_name e) = 1.
Proof.
  intros Hpost group.
  assert (Hget : get (display_name e) group = Some (stats_of e)).
  { unfold group, benchmark_data. rewrite get_fold_setitem.
    rewrite rev_app_distr. simpl. rewrite <- app_assoc. simpl.
    rewrite find_app_first_none.
    - simpl. now rewrite String.eqb_refl.
    - intros r Hr. apply String.eqb_neq. apply Hpost. now apply in_rev. }
  assert (Hnd : NoDup (keys group)).
  { unfold group, benchmark_data. apply keys_fold_setitem_nodup. constructor. }
  repeat split; trivial.
  apply NoDup_count_occ'; [exact Hnd|].
  apply get_some_in. eauto.
Qed.

End LoadFacts.

(** ** Pairing *)

Section PairingFacts.

Import PyStr.

(** C2. The two substring tests are applied in order and exclude each
    other: a name containing "sstr" takes the sstr role, whatever else it
    contains; "std" is looked for only in a name without "sstr"; so a name
    with both substrings is the sstr implementation. *)
Theorem classify_precedence (impl_name : string) (st : option string * option string) :
  (classify impl_name = Sstr <-> contains "sstr" impl_name = true) /\
  (classify impl_name = Std <->
     contains "sstr" impl_name = false /\ contains "std" impl_name = true) /\
  (classify impl_name = Neither <->
     contains "sstr" impl_name = false /\ contains "std" impl_name = false) /\
  (contains "sstr" impl_name = true <->
     exists pre post, impl_name = (pre ++ "sstr" ++ post)%string) /\
  (contains "std" impl_name = true <->
     exists pre post, impl_name = (pre ++ "std" ++ post)%string) /\
  (contains "sstr" impl_name = true ->
     pair_step st impl_name = (Some impl_name, snd st)) /\
  (contains "sstr" impl_name = false -> contains "std" impl_name = true ->
     pair_step st impl_name = (fst st, Some impl_name)) /\
  (contains "sstr" impl_name = false -> contains "std" impl_name = false ->
     pair_step st impl_name = st) /\
  (contains "sstr" impl_name = true -> contains "std" impl_name = true ->
     classify impl_name = Sstr /\
     pair_step st impl_name = (Some impl_name, snd st)).
Proof.
  unfold pair_step, classify.
  rewrite <- !contains_iff.
  destruct (contains "sstr" impl_name), (contains "std" impl_name);
    repeat split; intros; try tauto; try discriminate;
    try (destruct H; discriminate).
Qed.

Lemma fold_pair_step (l : list string) (st : option string * option string) :
  fold_left pair_step l st =
  (match find is_sstr (rev l) with Some n => Some n | None => fst st end,
   match find is_std (rev l) with Some n => Some n | None => snd st end).
Proof.
  revert st. induction l as [|n l IH]; intros st; simpl.
  - now destruct st.
  - rewrite IH, !find_app_last. unfold pair_step, classify, is_sstr, is_std.
    destruct (find _ (rev l)), (find _ (rev l)); simpl;
      destruct (contains "sstr" n), (contains "std" n); reflexivity.
Qed.

Lemma find_impls_spec (group : dict stats) :
  find_impls group =
  (find is_sstr (rev (keys group)), find is_std (rev (keys group))).
Proof.
  unfold find_impls. rewrite fold_pair_step. simpl.
  now destruct (find is_sstr _), (find is_std _).
Qed.

Lemma find_map {A B : Type} (f : B -> bool) (g : A -> B) (l : list A) :
  find f (map g l) = option_map g (find (fun a => f (g a)) l).
Proof.
  induction l as [|a l IH]; simpl; [reflexivity|].
  now destruct (f (g a)).
Qed.

(** C10, as the code has it. Each role goes to the last name, in the
    iteration order of the group's keys, that passes its test. That order is
    the order in which the display names first occur in the file: a name
    written again keeps its place. When the display names of the file are
    pairwise distinct, the name chosen is the one of the latest qualifying
    entry of the file. *)
Theorem find_impls_last_match (rs : list measurement) :
  let group := benchmark_data rs in
  fst (find_impls group) = find is_sstr (rev (keys group)) /\
  snd (find_impls group) = find is_std (rev (keys group)) /\
  keys group = first_occurrences [] (map display_name rs) /\
  (NoDup (map display_name rs) ->
     keys group = map display_name rs /\
     fst (find_impls group) = latest_qualifying is_sstr rs /\
     snd (find_impls group) = latest_qualifying is_std rs).
Proof.
  intros group. rewrite find_impls_spec. simpl.
  repeat split.
  - unfold group, benchmark_data. now rewrite keys_fold_setitem.
  - unfold group, benchmark_data. now rewrite keys_fold_setitem_distinct.
  - unfold group, benchmark_data, latest_qualifying.
    rewrite keys_fold_setitem_distinct by assumption. simpl.
    now rewrite <- map_rev, find_map.
  - unfold group, benchmark_data, latest_qualifying.
    rewrite keys_fold_setitem_distinct by assumption. simpl.
    now rewrite <- map_rev, find_map.
Qed.

End PairingFacts.


(** ** Floats *)

Section FloatFacts.

Local Open Scope float_scope.



(** Equal heights never give a negative difference. *)
Lemma diff_self_not_negative (y : float) :
  (y =? 0) = false -> (((y - y) / y) * 100 <? 0) = false.
Proof.
  rewrite eqb_spec, ltb_spec, mul_spec, div_spec, sub_spec.
  change (Prim2SF 0) with (S754_zero false).
  change (Prim2SF 100) with (S754_finite false 7036874417766400 (-46)).
  destruct (Prim2SF y) as [s|s| |s m e].
  - destruct s; discriminate.
  - intros _. now destruct s.
  - reflexivity.
  - intros _. unfold SF64sub, SFsub. rewrite Z.sub_diag.
    now destruct s.
Qed.

End FloatFacts.

(** ** The series of a panel *)

Section CollectFacts.

Local Open Scope float_scope.

Lemma find_impls_in (group : dict stats) (sstr_impl std_impl : option string) :
  find_impls group = (sstr_impl, std_impl) ->
  (forall n, sstr_impl = Some n -> In n (keys group) /\ is_sstr n = true) /\
  (forall n, std_impl = Some n -> In n (keys group) /\ is_std n = true).
Proof.
  rewrite find_impls_spec. intros H. injection H as <- <-.
  split; intros n Hn; apply find_some in Hn as [Hin Ht];
    (split; [now apply in_rev in Hin | exact Ht]).
Qed.

Lemma truthy_chosen (test : string -> bool) (n : string) :
  test n = true -> test ""%string = false -> truthy (Some n) = true.
Proof.
  intros Hn He. simpl. destruct (String.eqb_spec n ""%string); [|reflexivity].
  subst n. congruence.
Qed.

(** One turn of the loop: the label is appended in any case, the two
    heights only when the group is paired. *)
Lemma collect_step_spec (results : dict (dict stats)) (acc : series)
    (b : string) (group : dict stats) :
  get b results = Some group ->
  collect_step results acc b =
  Ok {| x_labels := x_labels acc ++ [label_of b];
        sstr_means := sstr_means acc ++
          match group_pair group with Some p => [fst p] | None => [] end;
        std_means := std_means acc ++
          match group_pair group with Some p => [snd p] | None => [] end |}.
Proof.
  intros Hg. unfold collect_step, getitem. rewrite Hg. simpl.
  unfold group_pair.
  destruct (find_impls group) as [sstr_impl std_impl] eqn:E.
  destruct (find_impls_in _ _ _ E) as [Hs Hd].
  destruct sstr_impl as [sn|]; [|simpl; now rewrite !app_nil_r].
  destruct std_impl as [dn|];
    [|simpl; rewrite andb_false_r; now rewrite !app_nil_r].
  destruct (Hs sn eq_refl) as [Hsin Hst], (Hd dn eq_refl) as [Hdin Hdt].
  rewrite (truthy_chosen is_sstr sn Hst eq_refl).
  rewrite (truthy_chosen is_std dn Hdt eq_refl).
  apply getitem_in in Hsin as [s [Hs1 Hs2]].
  apply getitem_in in Hdin as [d [Hd1 Hd2]].
  simpl. rewrite Hs2, Hd2, Hs1, Hd1. reflexivity.
Qed.

Lemma collect_spec (results : dict (dict stats)) (benchmarks : list string)
    (acc : series) :
  (forall b, In b benchmarks -> In b (keys results)) ->
  collect results benchmarks acc =
  Ok {| x_labels := x_labels acc ++ map label_of benchmarks;
        sstr_means := sstr_means acc ++ map fst (retained results benchmarks);
        std_means := std_means acc ++ map snd (retained results benchmarks) |}.
Proof.
  revert acc. induction benchmarks as [|b bs IH]; intros acc Hin.
  - simpl. rewrite !app_nil_r. now destruct acc.
  - assert (Hb : In b (keys results)) by (apply Hin; now left).
    apply get_some_in in Hb as [group Hg].
    cbn [collect]. rewrite (collect_step_spec _ _ _ _ Hg). cbn [bind].
    rewrite IH by (intros x Hx; apply Hin; now right).
    unfold retained. cbn [flat_map x_labels sstr_means std_means map].
    rewrite Hg, !map_app, <- !app_assoc.
    now destruct (group_pair group).
Qed.

(** Whatever the outcome of the pairing, a label is kept per benchmark. *)
Lemma collect_lengths (results : dict (dict stats)) (benchmarks : list string)
    (acc s : series) :
  collect results benchmarks acc = Ok s ->
  List.length (x_labels s) =
    (List.length (x_labels acc) + List.length benchmarks)%nat /\
  (List.length (sstr_means acc) = List.length (std_means acc) ->
   List.length (sstr_means s) = List.length (std_means s)).
Proof.
  revert acc. induction benchmarks as [|b bs IH]; intros acc; cbn [collect].
  - intros H. injection H as <-. simpl. lia.
  - destruct (collect_step results acc b) as [acc'|e] eqn:E; [|discriminate].
    cbn [bind]. intros H. apply IH in H as [H1 H2].
    unfold collect_step in E.
    destruct (getitem b results) as [group|]; [|discriminate].
    cbn [bind] in E. destruct (find_impls group) as [si di].
    destruct (truthy si && truthy di).
    + destruct (getitem_opt si group); [|discriminate].
      destruct (getitem_opt di group); [|discriminate].
      injection E as <-. simpl in *. rewrite !length_app in *. simpl in *.
      split; [lia|]. intros. apply H2. lia.
    + injection E as <-. simpl in *. rewrite !length_app in *. simpl in *.
      split; [lia | exact H2].
Qed.

(** The loop reads the groups of the benchmarks it is given, and no other. *)
Lemma collect_frame (results : dict (dict stats)) (name : string)
    (group : dict stats) (benchmarks : list string) (acc : series) :
  ~ In name benchmarks ->
  collect (setitem name group results) benchmarks acc =
  collect results benchmarks acc.
Proof.
  revert acc. induction benchmarks as [|b bs IH]; intros acc Hn; [reflexivity|].
  cbn [collect].
  assert (Hstep : collect_step (setitem name group results) acc b =
                  collect_step results acc b).
  { unfold collect_step, getitem. rewrite get_setitem.
    destruct (String.eqb_spec name b) as [->|_]; [|reflexivity].
    exfalso. apply Hn. now left. }
  rewrite Hstep. destruct (collect_step results acc b); [|reflexivity].
  cbn [bind]. apply IH. intros H. apply Hn. now right.
Qed.

Lemma plot_frame (ax : axes) (results : dict (dict stats)) (name : string)
    (group : dict stats) (benchmarks : list string) (title : string) :
  ~ In name benchmarks ->
  _plot_benchmark_group ax (setitem name group results) benchmarks title =
  _plot_benchmark_group ax results benchmarks title.
Proof.
  intros Hn. unfold _plot_benchmark_group. now rewrite collect_frame.
Qed.

End CollectFacts.

(** ** The annotations of a panel *)

Section AnnotateFacts.

Local Open Scope float_scope.

Lemma diff_percent_cases (sm dm : list float) (i : nat) (s d : float) :
  nth_error sm i = Some s -> nth_error dm i = Some d ->
  diff_percent sm dm i =
  if d =? 0 then Raise ZeroDivisionError else Ok ((s - d) / d * 100).
Proof.
  intros Hs Hd. unfold diff_percent, index, PyFloat.truediv.
  rewrite Hs, Hd. simpl. now destruct (d =? 0).
Qed.

Lemma annotate_at_cases (sm dm : list float) (i : nat) (s d : float) :
  nth_error sm i = Some s -> nth_error dm i = Some d ->
  annotate_at sm dm i =
  if d =? 0 then Raise ZeroDivisionError else Ok (annotation i (s, d)).
Proof.
  intros Hs Hd. unfold annotate_at.
  rewrite (diff_percent_cases _ _ _ _ _ Hs Hd).
  destruct (d =? 0); [reflexivity|].
  unfold index. rewrite Hs, Hd. reflexivity.
Qed.

Lemma nth_error_pairs (ps : list (float * float)) (i : nat) :
  (i < List.length ps)%nat ->
  nth_error (map fst ps) i = Some (fst (nth i ps (0, 0))) /\
  nth_error (map snd ps) i = Some (snd (nth i ps (0, 0))).
Proof.
  intros H. rewrite !nth_error_map.
  now rewrite (nth_error_nth' ps (0, 0) H).
Qed.

Lemma annotate_spec (ps : list (float * float)) (range : list nat) (ax : axes) :
  (forall i, In i range -> (i < List.length ps)%nat) ->
  annotate (map fst ps) (map snd ps) range ax =
  if forallb (fun i => nonzero_std (nth i ps (0, 0))) range
  then Ok (ax ++ map (fun i => annotation i (nth i ps (0, 0))) range)
  else Raise ZeroDivisionError.
Proof.
  revert ax. induction range as [|i range IH]; intros ax Hr; simpl.
  - now rewrite app_nil_r.
  - destruct (nth_error_pairs ps i) as [Hs Hd]; [apply Hr; now left|].
    rewrite (annotate_at_cases _ _ _ _ _ Hs Hd). unfold nonzero_std at 1.
    destruct (snd (nth i ps (0, 0)) =? 0); [reflexivity|]. simpl.
    rewrite IH by (intros j Hj; apply Hr; now right).
    destruct (forallb _ range); [|reflexivity].
    rewrite <- app_assoc. simpl. now destruct (nth i ps (0, 0)).
Qed.

Lemma forallb_indices {A : Type} (f : A -> bool) (l : list A) (d : A) :
  forallb (fun i => f (nth i l d)) (seq 0 (List.length l)) = forallb f l.
Proof.
  induction l as [|a l IH]; [reflexivity|].
  cbn [List.length]. rewrite <- cons_seq, <- seq_shift. cbn [forallb nth].
  f_equal. rewrite <- IH. clear IH.
  induction (seq 0 (List.length l)) as [|j js IHj]; [reflexivity|].
  simpl. now rewrite IHj.
Qed.

(** The whole of [_plot_benchmark_group], when every benchmark named is a
    key of the results (as the caller ensures). *)
Lemma plot_spec (ax : axes) (results : dict (dict stats))
    (benchmarks : list string) (title : string) :
  (forall b, In b benchmarks -> In b (keys results)) ->
  _plot_benchmark_group ax results benchmarks title =
  match panel_outcome title (map label_of benchmarks)
          (retained results benchmarks) with
  | Ok calls => Ok (ax ++ calls)
  | Raise e => Raise e
  end.
Proof.
  intros Hin. unfold _plot_benchmark_group, panel_outcome.
  rewrite (collect_spec _ _ _ Hin). cbn [bind x_labels sstr_means std_means
    empty_series app].
  unfold ax_bar. rewrite ?length_map, ?length_seq, ?length_map.
  destruct (broadcasts _ _); [|reflexivity]. cbn [bind].
  rewrite annotate_spec.
  - rewrite forallb_indices.
    destruct (forallb nonzero_std _); [|reflexivity].
    cbn [bind]. unfold drawn_panel. rewrite length_map, <- !app_assoc.
    reflexivity.
  - intros i Hi. now apply in_seq in Hi.
Qed.



Lemma plot_ok (ax : axes) (results : dict (dict stats))
    (benchmarks : list string) (title : string) :
  (forall b, In b benchmarks -> In b (keys results)) ->
  broadcasts (List.length benchmarks)
             (List.length (retained results benchmarks)) = true ->
  forallb nonzero_std (retained results benchmarks) = true ->
  _plot_benchmark_group ax results benchmarks title =
  Ok (ax ++ drawn_panel title (map label_of benchmarks)
                        (retained results benchmarks)).
Proof.
  intros Hin Hb Hz. rewrite (plot_spec _ _ _ _ Hin). unfold panel_outcome.
  now rewrite length_map, Hb, Hz.
Qed.

Lemma texts_drawn_panel (title : string) (labels : list string)
    (ps : list (float * float)) :
  texts (drawn_panel title labels ps) =
  map (fun i => annotation i (nth i ps (0, 0))) (seq 0 (List.length ps)).
Proof.
  unfold drawn_panel, texts. cbn [app filter].
  rewrite filter_app. cbn [filter]. rewrite app_nil_r.
  induction (seq 0 (List.length ps)) as [|i l IH]; [reflexivity|].
  cbn [map filter]. rewrite IH.
  unfold annotation at 1. now destruct (nth i ps (0, 0)).
Qed.


End AnnotateFacts.

(** ** Labels *)

Section LabelFacts.

Import PyStr.
Local Open Scope string_scope.

Lemma label_of_three_parts (a b c : string) :
  count "_" a = 0 -> count "_" b = 0 ->
  split "_" (Some 2) (a ++ "_" ++ b ++ "_" ++ c) = [a; b; c] /\
  label_of (a ++ "_" ++ b ++ "_" ++ c) = c.
Proof.
  intros Ha Hb. unfold label_of.
  change (a ++ "_" ++ b ++ "_" ++ c) with (a ++ String "_" (b ++ String "_" c)).
  rewrite (split_at_sep "_" 1 a _ Ha), (split_at_sep "_" 0 b _ Hb), split_zero.
  split; reflexivity.
Qed.

(** C7, as the code has it. The label is the last of the at most three
    parts that splitting at the first two ['_'] gives. For a name with two
    or more ['_'] that is everything after the second one, further ['_']
    included; a name with one ['_'] keeps what follows it, and a name with
    none is its own label. *)
Theorem label_of_spec (name : string) :
  label_of name = last_part (split "_" (Some 2) name) /\
  List.length (split "_" (Some 2) name) <= 3 /\
  String.concat "_" (split "_" (Some 2) name) = name /\
  (2 <= count "_" name -> after_second_underscore name (label_of name)) /\
  (forall label, after_second_underscore name label -> label_of name = label) /\
  (count "_" name = 1 ->
     exists a, count "_" a = 0 /\ name = a ++ "_" ++ label_of name) /\
  (count "_" name = 0 -> label_of name = name) /\
  label_of "results_copy_small" = "small" /\
  label_of "results_format_large_extra" = "large_extra" /\
  label_of "results_copy" = "copy".
Proof.
  split; [reflexivity|].
  split; [apply split_length|].
  split; [apply split_join|].
  split; [|split; [|split; [|split; [|repeat split]]]].
  - intros H.
    destruct (split_off_first "_" name) as [a [r [Ha [Hn Hc]]]]; [lia|].
    destruct (split_off_first "_" r) as [b [c [Hb [Hr _]]]]; [lia|].
    subst name r. exists a, b.
    destruct (label_of_three_parts a b c Ha Hb) as [_ Hl].
    simpl in Hl |- *. now rewrite Hl.
  - intros label [a [b [Ha [Hb ->]]]].
    now apply label_of_three_parts.
  - intros H.
    destruct (split_off_first "_" name) as [a [r [Ha [Hn Hc]]]]; [lia|].
    exists a. split; [exact Ha|]. subst name. unfold label_of.
    rewrite (split_at_sep "_" 1 a r Ha), split_no_sep by lia.
    reflexivity.
  - intros H. unfold label_of. now rewrite split_no_sep.
Qed.

(** C7, as stated, fails for a group name with a single ['_']: the group
    of a file [results_copy.json] is in the copy panel and its label is
    [copy], which is not what follows a second ['_']. *)
Lemma label_of_results_copy :
  startswith "results_copy" "results_copy" = true /\
  label_of "results_copy" = "copy" /\
  ~ after_second_underscore "results_copy" (label_of "results_copy").
Proof.
  repeat split. intros [a [b [_ [_ H]]]].
  apply (f_equal (count "_")) in H.
  rewrite !count_app in H. simpl in H. lia.
Qed.

End LabelFacts.

(** ** Categories *)

Section CategoryFacts.

Import PyStr.

Lemma prefixes_exclusive (name : string) :
  (startswith "results_copy" name = true ->
     startswith "results_append" name = false /\
     startswith "results_format" name = false) /\
  (startswith "results_append" name = true ->
     startswith "results_format" name = false).
Proof.
  split; [intros H; split | intros H];
    apply not_true_is_false; intros H';
    apply startswith_iff in H as [r ->];
    apply startswith_iff in H' as [r' H']; discriminate H'.
Qed.

Lemma category_in_keys (results : dict (dict stats)) (f : string -> bool)
    (b : string) :
  In b (filter f (sorted (keys results))) -> In b (keys results).
Proof.
  intros H. apply filter_In in H as [H _].
  eapply Permutation_in; [apply sorted_perm | exact H].
Qed.

Lemma panel_outcome_ok (title : string) (labels : list string)
    (ps : list (float * float)) (calls : axes) :
  panel_outcome title labels ps = Ok calls ->
  calls = drawn_panel title labels ps /\
  In (set_title title) calls /\ In (set_xticklabels labels) calls.
Proof.
  unfold panel_outcome.
  destruct (broadcasts _ _); [|discriminate].
  destruct (forallb _ _); [|discriminate].
  intros H. injection H as <-. split; [reflexivity|].
  unfold drawn_panel. split; apply in_or_app; right; apply in_or_app; right;
    simpl; tauto.
Qed.

(** C8. The group names are sorted, then filtered three times, by the
    prefixes of copy, append and format, where a name has a prefix when it
    is the prefix followed by some text; each list keeps the sorted order
    and holds exactly the groups with its prefix; the three lists are
    disjoint; a name with none of the prefixes is in none of them, and a
    group with such a name, whatever it holds, changes nothing in the
    outcome of the run; the first panel is drawn from the copy list, the
    second from the append list, the third from the format list. *)
Theorem group_benchmarks_spec (savefig : list axes -> string -> option exn)
    (results : dict (dict stats)) (output_filename : string) :
  let benchmarks := sorted (keys results) in
  let copy_benchmarks := filter (startswith "results_copy") benchmarks in
  let append_benchmarks := filter (startswith "results_append") benchmarks in
  let format_benchmarks := filter (startswith "results_format") benchmarks in
  (forall prefix name,
     startswith prefix name = true <->
     exists rest, name = (prefix ++ rest)%string) /\
  Permutation benchmarks (keys results) /\
  StronglySorted le benchmarks /\
  group_benchmarks results =
    (copy_benchmarks, append_benchmarks, format_benchmarks) /\
  (StronglySorted le copy_benchmarks /\
   StronglySorted le append_benchmarks /\
   StronglySorted le format_benchmarks) /\
  (forall name,
     (In name copy_benchmarks <->
        In name (keys results) /\
        exists rest, name = ("results_copy" ++ rest)%string) /\
     (In name append_benchmarks <->
        In name (keys results) /\
        exists rest, name = ("results_append" ++ rest)%string) /\
     (In name format_benchmarks <->
        In name (keys results) /\
        exists rest, name = ("results_format" ++ rest)%string)) /\
  (forall name,
     ~ (In name copy_benchmarks /\ In name append_benchmarks) /\
     ~ (In name copy_benchmarks /\ In name format_benchmarks) /\
     ~ (In name append_benchmarks /\ In name format_benchmarks)) /\
  (forall name,
     (forall rest, name <> ("results_copy" ++ rest)%string) ->
     (forall rest, name <> ("results_append" ++ rest)%string) ->
     (forall rest, name <> ("results_format" ++ rest)%string) ->
     (~ In name copy_benchmarks /\ ~ In name append_benchmarks /\
      ~ In name format_benchmarks) /\
     forall group,
       create_comparison_plot savefig (setitem name group results)
         output_filename =
       create_comparison_plot savefig results output_filename) /\
  (forall fig,
     create_comparison_plot savefig results output_filename = Ok fig ->
     exists a0 a1 a2,
       panels fig = [a0; a1; a2] /\
       In (set_title "String Copy Performance") a0 /\
       In (set_xticklabels (map label_of copy_benchmarks)) a0 /\
       In (set_title "String Append Performance") a1 /\
       In (set_xticklabels (map label_of append_benchmarks)) a1 /\
       In (set_title "String Format Performance") a2 /\
       In (set_xticklabels (map label_of format_benchmarks)) a2) /\
  group_benchmarks results_five =
    (["results_copy_big"; "results_copy_small"]%string,
     ["results_append_medium"]%string,
     ["results_format_large"]%string).
Proof.
  intros benchmarks copy_benchmarks append_benchmarks format_benchmarks.
  assert (Hperm : Permutation benchmarks (keys results)) by apply sorted_perm.
  assert (Hsorted : StronglySorted le benchmarks) by apply sorted_sorted.
  assert (Hmem : forall f name,
            In name (filter f benchmarks) <-> In name (keys results) /\ f name = true).
  { intros f name. rewrite filter_In. split; intros [H1 H2]; split; trivial.
    - eapply Permutation_in; eassumption.
    - eapply Permutation_in; [symmetry|]; eassumption. }
  assert (Hexcl : forall f g name,
            (f name = true -> g name = false) ->
            ~ (In name (filter f benchmarks) /\ In name (filter g benchmarks))).
  { intros f g name Hfg [H1 H2].
    apply Hmem in H1 as [_ H1], H2 as [_ H2].
    apply Hfg in H1. congruence. }
  assert (Hout : forall f name,
            f name = false -> ~ In name (filter f benchmarks)).
  { intros f name Hf H. apply Hmem in H as [_ H]. congruence. }
  assert (Hno : forall prefix name,
            (forall rest, name <> (prefix ++ rest)%string) ->
            startswith prefix name = false).
  { intros prefix name H. apply not_true_is_false. intros Ht.
    apply startswith_iff in Ht as [rest Hr]. exact (H rest Hr). }
  split; [intros prefix name; apply startswith_iff|].
  split; [exact Hperm|].
  split; [exact Hsorted|].
  split; [reflexivity|].
  split; [split; [|split]; now apply filter_sorted|].
  split.
  { intros name. split; [|split]; rewrite <- startswith_iff; apply Hmem. }
  split.
  { intros name. destruct (prefixes_exclusive name) as [Hc Ha].
    split; [|split]; apply Hexcl; intros H.
    - now apply Hc in H.
    - now apply Hc in H.
    - now apply Ha in H. }
  split.
  { intros name Hc Ha Hf.
    apply Hno in Hc, Ha, Hf.
    split; [split; [|split]; now apply Hout|].
    intros group.
    assert (Hfilter : forall f, f name = false ->
              filter f (sorted (keys (setitem name group results))) =
              filter f benchmarks).
    { intros f Hfn.
      destruct (in_dec string_dec name (keys results)) as [Hin|Hin].
      - now rewrite keys_setitem_in.
      - rewrite keys_setitem_notin by exact Hin. now apply filter_sorted_snoc. }
    unfold create_comparison_plot, group_benchmarks.
    rewrite !Hfilter by assumption. fold benchmarks.
    rewrite !plot_frame by now apply Hout.
    reflexivity. }
  split; [|reflexivity].
  intros fig. unfold create_comparison_plot, group_benchmarks.
  rewrite !plot_spec by apply category_in_keys.
  fold benchmarks. fold copy_benchmarks append_benchmarks format_benchmarks.
  destruct (panel_outcome _ (map label_of copy_benchmarks) _) as [a0|] eqn:E0;
    [|discriminate].
  destruct (panel_outcome _ (map label_of append_benchmarks) _) as [a1|] eqn:E1;
    [|discriminate].
  destruct (panel_outcome _ (map label_of format_benchmarks) _) as [a2|] eqn:E2;
    [|discriminate].
  cbn [bind app].
  destruct (savefig _ _); [discriminate|].
  intros H. injection H as <-. exists a0, a1, a2.
  apply panel_outcome_ok in E0 as [_ [? ?]], E1 as [_ [? ?]], E2 as [_ [? ?]].
  simpl. tauto.
Qed.

End CategoryFacts.

(** ** Panels *)

Section PanelFacts.

Local Open Scope float_scope.

Lemma retained_inv (results : dict (dict stats)) (benchmarks : list string)
    (p : float * float) :
  In p (retained results benchmarks) ->
  exists b group sstr_impl std_impl s d,
    In b benchmarks /\ get b results = Some group /\
    find_impls group = (Some sstr_impl, Some std_impl) /\
    get sstr_impl group = Some s /\ get std_impl group = Some d /\
    p = (s_mean s * 1000, s_mean d * 1000).
Proof.
  unfold retained. intros H. apply in_flat_map in H as [b [Hb H]].
  destruct (get b results) as [group|] eqn:Hg; [|contradiction].
  unfold group_pair in H.
  destruct (find_impls group) as [[sn|] [dn|]] eqn:E; try contradiction.
  destruct (get sn group) as [s|] eqn:Hs; [|contradiction].
  destruct (get dn group) as [d|] eqn:Hd; [|contradiction].
  destruct H as [<-|[]]. now exists b, group, sn, dn, s, d.
Qed.

(** C1 at a group with no std-named entry: the two series stay empty but
    the label list has the entry [small]; in general the label list is as
    long as the list of benchmarks, paired or not. *)
Theorem unpaired_group_keeps_its_label :
  let results := load_benchmark_results [file_sstr_only] in
  keys results = ["results_copy_small"%string] /\
  retained results ["results_copy_small"%string] = [] /\
  collect results ["results_copy_small"%string] empty_series =
    Ok {| x_labels := ["small"%string]; sstr_means := []; std_means := [] |} /\
  (forall (results : dict (dict stats)) (benchmarks : list string) (s : series),
     collect results benchmarks empty_series = Ok s ->
     List.length (x_labels s) = List.length benchmarks /\
     List.length (sstr_means s) = List.length (std_means s)).
Proof.
  repeat split; try (apply collect_lengths in H as [H1 H2]); auto.
Qed.

(** C3, as the code has it. With sstr mean 0.0010 s and std mean 0.0020 s
    the difference is -50.0 and the annotation is the green text [-50.0%];
    with the two values swapped the difference is 100.0 and the annotation
    is the red text [100.0%], which carries no sign. *)
Theorem percentage_annotation_examples :
  let faster := load_benchmark_results [file_sstr_faster] in
  let slower := load_benchmark_results [file_sstr_slower] in
  let benchmarks := ["results_copy_small"%string] in
  retained faster benchmarks = [(1, 2)] /\
  diff_percent [1] [2] 0 = Ok (-50) /\
  (exists ax,
     _plot_benchmark_group [] faster benchmarks "String Copy Performance" = Ok ax /\
     texts ax = [text 0 (2 + 0.05) "-50.0%" green]) /\
  retained slower benchmarks = [(2, 1)] /\
  diff_percent [2] [1] 0 = Ok 100 /\
  (exists ax,
     _plot_benchmark_group [] slower benchmarks "String Copy Performance" = Ok ax /\
     texts ax = [text 0 (2 + 0.05) "100.0%" red]).
Proof.
  repeat split; try (vm_compute; reflexivity);
    eexists; split; vm_compute; reflexivity.
Qed.

(** C3, as stated, fails on the swapped values: no annotation of that panel
    reads [+50.0%]. *)
Lemma swapped_annotation_is_not_plus_50 :
  ~ exists ax x y c,
      _plot_benchmark_group [] (load_benchmark_results [file_sstr_slower])
        ["results_copy_small"%string] "String Copy Performance" = Ok ax /\
      In (text x y "+50.0%" c) ax.
Proof.
  intros (ax & x & y & c & H & Hin).
  vm_compute in H. injection H as <-.
  simpl in Hin. intuition discriminate.
Qed.

(** C4. When the bars of a panel are accepted and no retained group has a
    zero std height, the panel is drawn and its i-th annotation is, for the
    two heights (mean * 1000) of the i-th retained group, the text of
    ((sstr - std) / std) * 100 with one decimal and a percent sign, placed
    0.05 above the taller bar, green when that value is below zero and red
    otherwise; equal heights give red. The text of a value has one decimal,
    rounded to nearest, ties to even. *)
Theorem annotation_value_and_color (results : dict (dict stats))
    (benchmarks : list string) (title : string) :
  (forall b, In b benchmarks -> In b (keys results)) ->
  broadcasts (List.length benchmarks)
             (List.length (retained results benchmarks)) = true ->
  (forall p, In p (retained results benchmarks) -> (snd p =? 0) = false) ->
  exists ax,
    _plot_benchmark_group [] results benchmarks title = Ok ax /\
    List.length (texts ax) = List.length (retained results benchmarks) /\
    (forall p, In p (retained results benchmarks) ->
       exists b group sstr_impl std_impl s d,
         In b benchmarks /\ get b results = Some group /\
         find_impls group = (Some sstr_impl, Some std_impl) /\
         get sstr_impl group = Some s /\ get std_impl group = Some d /\
         p = (s_mean s * 1000, s_mean d * 1000)) /\
    (forall i sstr_ms std_ms,
       nth_error (retained results benchmarks) i = Some (sstr_ms, std_ms) ->
       let diff := (sstr_ms - std_ms) / std_ms * 100 in
       nth_error (texts ax) i =
         Some (text i ((if sstr_ms <? std_ms then std_ms else sstr_ms) + 0.05)
                    (PyFloat.format_1f diff ++ "%")%string
                    (if diff <? 0 then green else red)) /\
       (sstr_ms = std_ms -> (diff <? 0) = false)) /\
    (PyFloat.format_1f ((1 - 2) / 2 * 100) = "-50.0"%string /\
     PyFloat.format_1f ((2 - 1) / 1 * 100) = "100.0"%string /\
     PyFloat.format_1f ((1 - 3) / 3 * 100) = "-66.7"%string /\
     PyFloat.format_1f ((4 - 3) / 3 * 100) = "33.3"%string /\
     PyFloat.format_1f ((3 - 3) / 3 * 100) = "0.0"%string /\
     PyFloat.format_1f 0.25 = "0.2"%string /\
     PyFloat.format_1f 0.75 = "0.8"%string /\
     PyFloat.format_1f 1234.56 = "1234.6"%string).
Proof.
  intros Hkeys Hbars Hnz. set (ps := retained results benchmarks) in *.
  exists (drawn_panel title (map label_of benchmarks) ps).
  assert (Hall : forallb nonzero_std ps = true).
  { apply forallb_forall. intros p Hp. unfold nonzero_std.
    now rewrite (Hnz p Hp). }
  rewrite (plot_ok [] results benchmarks title Hkeys Hbars Hall). fold ps.
  rewrite texts_drawn_panel.
  split; [reflexivity|].
  split; [now rewrite length_map, length_seq|].
  split; [intros p Hp; now apply retained_inv|].
  split; [|repeat split; vm_compute; reflexivity].
  intros i s d Hi diff.
  assert (Hlt : (i < List.length ps)%nat).
  { apply nth_error_Some. congruence. }
  split.
  - rewrite nth_error_map.
    rewrite (nth_error_nth' (seq 0 (List.length ps)) 0%nat)
      by now rewrite length_seq.
    rewrite seq_nth by exact Hlt. simpl.
    now rewrite (nth_error_nth _ _ (0, 0) Hi).
  - intros ->. apply diff_self_not_negative.
    apply (Hnz (d, d)). eapply nth_error_In. exact Hi.
Qed.



End PanelFacts.

(** ** The statements at concrete inputs *)

Section Instances.

Local Open Scope float_scope.

Lemma load_distinct_stems_witness :
  NoDup (map benchmark_name [file_sstr_faster; file_append]) /\
  keys (load_benchmark_results [file_sstr_faster; file_append]) =
    ["results_copy_small"; "results_append_big"]%string.
Proof.
  assert (H : NoDup (map benchmark_name [file_sstr_faster; file_append])).
  { vm_compute. repeat constructor; simpl; intuition discriminate. }
  split; [exact H|].
  exact (proj1 (proj2 (load_distinct_stems [file_sstr_faster; file_append] H))).
Defined.

Lemma benchmark_data_last_wins_witness :
  get "sstr_x"%string (benchmark_data [sstr_first; sstr_second; std_only]) =
  Some {| s_mean := 0.002; s_stddev := 0.0002;
          s_min := 0.0018; s_max := 0.0025 |}.
Proof.
  apply (benchmark_data_last_wins [sstr_first] [std_only] sstr_second).
  intros r [<-|[]]. vm_compute. discriminate.
Defined.

Lemma annotation_value_and_color_witness :
  exists ax,
    _plot_benchmark_group [] (load_benchmark_results [file_sstr_faster])
      ["results_copy_small"%string] "String Copy Performance" = Ok ax /\
    List.length (texts ax) = 1%nat /\
    nth_error (texts ax) 0 = Some (text 0 (2 + 0.05) "-50.0%" green).
Proof.
  destruct (annotation_value_and_color
              (load_benchmark_results [file_sstr_faster])
              ["results_copy_small"%string] "String Copy Performance")
    as [ax [H1 [H2 [_ [H4 _]]]]].
  - intros b [<-|[]]. vm_compute. now left.
  - reflexivity.
  - intros p Hp. vm_compute in Hp. destruct Hp as [<-|[]]. reflexivity.
  - exists ax. split; [exact H1|]. split; [exact H2|].
    exact (proj1 (H4 0%nat 1 2 eq_refl)).
Defined.


(** C10, as stated, fails when a display name is listed again: [sstr_a]
    comes last among the qualifying entries of the file, but it keeps its
    first place among the keys, and the loop ends on [sstr_b]. *)
Lemma relisted_name_keeps_its_place :
  keys (benchmark_data relisted) = ["sstr_a"; "sstr_b"; "std_x"]%string /\
  fst (find_impls (benchmark_data relisted)) = Some "sstr_b"%string /\
  latest_qualifying is_sstr relisted = Some "sstr_a"%string /\
  fst (find_impls (benchmark_data relisted)) <> latest_qualifying is_sstr relisted.
Proof.
  repeat split. vm_compute. discriminate.
Qed.

End Instances.

(** * Further properties of the script *)

(** ** Names: the implementation of an entry, the group of a file *)

Section NameFacts.

Import PyStr.
Local Open Scope string_scope.

Lemma split_none_length (sep : ascii) (s : string) :
  List.length (split sep None s) = S (count sep s).
Proof.
  induction s as [|c s IH]; [reflexivity|]. simpl.
  destruct (c =? sep)%char; simpl.
  - now rewrite IH.
  - rewrite <- IH. now destruct (split sep None s).
Qed.

Lemma last_part_cons (p : string) (l : list string) :
  l <> [] -> last_part (p :: l) = last_part l.
Proof.
  unfold last_part. destruct l; [congruence | reflexivity].
Qed.

(** The last part has no separator, and the string ends with it, after a
    separator unless the string has none. *)
Lemma split_none_last (sep : ascii) (s : string) :
  count sep (last_part (split sep None s)) = 0 /\
  ((count sep s = 0 /\ last_part (split sep None s) = s) \/
   exists pre, s = pre ++ String sep (last_part (split sep None s))).
Proof.
  induction s as [|c s [IHc IHs]]; [now split; [|left]|].
  cbn [split]. destruct (c =? sep)%char eqn:Ec.
  - apply Ascii.eqb_eq in Ec. subst c.
    rewrite last_part_cons by apply split_not_nil.
    split; [exact IHc|]. right.
    destruct IHs as [[_ Hs]|[pre Hs]].
    + exists "". simpl. now rewrite Hs.
    + exists (String sep pre). simpl. now rewrite <- Hs.
  - assert (Hlen := split_none_length sep s).
    destruct (split sep None s) as [|p [|p2 ps]] eqn:E.
    + discriminate Hlen.
    + assert (Hz : count sep s = 0) by (simpl in Hlen; lia).
      rewrite (split_no_sep sep None s Hz) in E. injection E as <-.
      unfold last_part. simpl. rewrite Ec. simpl.
      split; [exact Hz|]. left. now split.
    + rewrite last_part_cons by discriminate.
      rewrite last_part_cons in IHc, IHs by discriminate.
      split; [exact IHc|]. right.
      destruct IHs as [[Hz _]|[pre Hs]].
      * simpl in Hlen. lia.
      * exists (String c pre). simpl. now rewrite <- Hs.
Qed.

Lemma split_none_after (sep : ascii) (dir name : string) :
  count sep name = 0 ->
  last_part (split sep None (dir ++ String sep name)) = name.
Proof.
  intros Hn. induction dir as [|c dir IH]; cbn [append split].
  - rewrite Ascii.eqb_refl, (split_no_sep sep None name Hn). reflexivity.
  - assert (Hlen := split_none_length sep (dir ++ String sep name)).
    rewrite count_app in Hlen. simpl in Hlen. rewrite Ascii.eqb_refl in Hlen.
    destruct (c =? sep)%char.
    + rewrite last_part_cons by apply split_not_nil. exact IH.
    + destruct (split sep None (dir ++ String sep name)) as [|p [|p2 ps]].
      * discriminate Hlen.
      * simpl in Hlen. lia.
      * rewrite last_part_cons by discriminate.
        rewrite last_part_cons in IH by discriminate. exact IH.
Qed.

(** X1. The display name of an entry is the text of its command after the
    last ['/']: it holds no ['/'], it is the whole command when the command
    holds none, and for a command [dir/name] with no ['/'] in [name] it is
    [name]. *)
Theorem display_name_spec (r : measurement) :
  count "/" (display_name r) = 0 /\
  (count "/" (command r) = 0 -> display_name r = command r) /\
  (1 <= count "/" (command r) ->
     exists dir, command r = dir ++ "/" ++ display_name r) /\
  (forall dir name,
     command r = dir ++ "/" ++ name -> count "/" name = 0 ->
     display_name r = name).
Proof.
  unfold display_name.
  destruct (split_none_last "/" (command r)) as [Hc Hs].
  split; [exact Hc|]. split; [|split].
  - intros Hz. now rewrite split_no_sep.
  - intros Hone. destruct Hs as [[Hz _]|[pre Hs]]; [lia|]. now exists pre.
  - intros dir name -> Hn. now apply split_none_after.
Qed.

Lemma rfind_none (c : ascii) (s : string) :
  count c s = 0 -> rfind c s = (-1)%Z.
Proof.
  induction s as [|a s IH]; [reflexivity|]. simpl.
  destruct (a =? c)%char; [discriminate|]. simpl.
  intros H. now rewrite IH.
Qed.

Lemma rfind_last (c : ascii) (a t : string) :
  count c t = 0 -> rfind c (a ++ String c t) = Z.of_nat (length a).
Proof.
  intros Ht. induction a as [|x a IH].
  - simpl. now rewrite (rfind_none c t Ht), Ascii.eqb_refl.
  - cbn [append rfind length]. rewrite IH.
    destruct (0 <=? Z.of_nat (length a))%Z eqn:E; [lia|].
    apply Z.leb_gt in E. lia.
Qed.

Lemma substring_prefix (a b : string) :
  substring 0 (length a) (a ++ b) = a.
Proof.
  induction a as [|x a IH]; simpl.
  - now destruct b.
  - now rewrite IH.
Qed.

Lemma substring_all (s : string) : substring 0 (length s) s = s.
Proof.
  induction s as [|x s IH]; simpl; [reflexivity | now rewrite IH].
Qed.

Lemma substring_skip (a b : string) (n : nat) :
  substring (length a) n (a ++ b) = substring 0 n b.
Proof.
  induction a as [|x a IH]; simpl; [reflexivity | exact IH].
Qed.

Lemma length_append (a b : string) : length (a ++ b) = length a + length b.
Proof.
  induction a as [|x a IH]; simpl; [reflexivity | now rewrite IH].
Qed.

Lemma append_associative (a b c : string) : (a ++ b) ++ c = a ++ (b ++ c).
Proof.
  induction a as [|x a IH]; simpl; [reflexivity | now rewrite IH].
Qed.

Lemma basename_no_sep (t : string) : count "/" t = 0 -> basename t = t.
Proof.
  intros H. unfold basename, slice_from. rewrite (rfind_none _ _ H). simpl.
  rewrite Nat.sub_0_r. apply substring_all.
Qed.

Lemma basename_after_sep (dir t : string) :
  count "/" t = 0 -> basename (dir ++ "/" ++ t) = t.
Proof.
  intros H. unfold basename, slice_from.
  change (dir ++ "/" ++ t) with (dir ++ String "/" t).
  rewrite (rfind_last "/" dir t H).
  replace (Z.to_nat (Z.of_nat (length dir) + 1)) with (length (dir ++ "/"))
    by (rewrite length_append; simpl; lia).
  replace (dir ++ String "/" t) with ((dir ++ "/") ++ t)
    by (now rewrite append_associative).
  rewrite substring_skip, length_append.
  replace (length (dir ++ "/") + length t - length (dir ++ "/")) with (length t)
    by lia.
  apply substring_all.
Qed.

Lemma splitext_last_dot (base ext : string) :
  count "/" base = 0 -> count "/" ext = 0 -> count "." ext = 0 ->
  splitext (base ++ "." ++ ext) =
  if all_dots base then (base ++ "." ++ ext, "") else (base, "." ++ ext).
Proof.
  intros Hb He Hd. unfold splitext.
  change (base ++ "." ++ ext) with (base ++ String "." ext).
  rewrite (rfind_last "." base ext Hd).
  rewrite rfind_none by (rewrite count_app; simpl; lia).
  destruct (-1 <? Z.of_nat (length base))%Z eqn:E;
    [|apply Z.ltb_ge in E; lia].
  simpl Z.to_nat. rewrite Nat2Z.id, Nat.sub_0_r, substring_prefix.
  destruct (all_dots base); [reflexivity|].
  unfold slice_to, slice_from. rewrite Nat2Z.id, length_append.
  rewrite Nat.min_l by lia. rewrite substring_prefix.
  replace (length base + length (String "." ext) - length base)
    with (length (String "." ext)) by lia.
  rewrite substring_skip, substring_all. reflexivity.
Qed.

(** X2. The group name of a file [base.ext], alone or after a directory,
    is [base]: the directory and the last extension are dropped; [base] may
    hold dots of its own, but when it is made of dots only (a hidden file)
    the whole file name is kept. *)
Theorem benchmark_name_spec (base ext fn : string) (rs : list measurement) :
  count "/" base = 0 -> count "/" ext = 0 -> count "." ext = 0 ->
  fn = base ++ "." ++ ext \/ (exists dir, fn = dir ++ "/" ++ base ++ "." ++ ext) ->
  benchmark_name {| filename := fn; results := rs |} =
  if all_dots base then base ++ "." ++ ext else base.
Proof.
  intros Hb He Hd Hfn. unfold benchmark_name. cbn [filename].
  assert (Hq : count "/" (base ++ "." ++ ext) = 0).
  { rewrite !count_app. simpl. lia. }
  assert (Hbase : basename fn = base ++ "." ++ ext).
  { destruct Hfn as [->|[dir ->]].
    - now apply basename_no_sep.
    - now apply basename_after_sep. }
  rewrite Hbase, (splitext_last_dot base ext Hb He Hd).
  now destruct (all_dots base).
Qed.

End NameFacts.

(** ** The loaded mapping *)

Section LookupFacts.

Lemma in_keys_fold_setitem {A V : Type} (key : A -> string) (val : A -> V)
    (l : list A) (k : string) :
  In k (keys (fold_left (fun d a => setitem (key a) (val a) d) l [])) <->
  exists a, In a l /\ key a = k.
Proof.
  rewrite get_some_in, get_fold_setitem. split.
  - intros [v Hv].
    destruct (find (fun a => (key a =? k)%string) (rev l)) as [a|] eqn:E;
      [|discriminate].
    apply find_some in E as [Ha Hk]. exists a.
    split; [now apply in_rev | now apply String.eqb_eq].
  - intros [a [Ha Hk]].
    destruct (find (fun a => (key a =? k)%string) (rev l)) as [b|] eqn:E;
      [eauto|].
    assert (H := find_none _ _ E a). simpl in H.
    rewrite Hk, String.eqb_refl in H. discriminate H. now apply -> in_rev.
Qed.

(** X3. Looking up the loaded mapping: its keys are pairwise distinct and
    are the group names of the files; a group name holds the group of the
    last listed file with that name, and within a group an implementation
    name holds the four statistics (mean, standard deviation, minimum,
    maximum) of the last entry with that name; a name that no file (no
    entry) has is absent. *)
Theorem load_lookup (files : list result_file) (k n : string) :
  let loaded := load_benchmark_results files in
  NoDup (keys loaded) /\
  List.length (keys loaded) <= List.length files /\
  (In k (keys loaded) <-> exists f, In f files /\ benchmark_name f = k) /\
  get k loaded =
    option_map (fun f => benchmark_data (results f))
      (find (fun f => (benchmark_name f =? k)%string) (rev files)) /\
  (forall rs : list measurement,
     NoDup (keys (benchmark_data rs)) /\
     (In n (keys (benchmark_data rs)) <->
        exists r, In r rs /\ display_name r = n) /\
     get n (benchmark_data rs) =
       option_map
         (fun r => {| s_mean := mean r; s_stddev := stddev r;
                      s_min := tmin r; s_max := tmax r |})
         (find (fun r => (display_name r =? n)%string) (rev rs))).
Proof.
  intros loaded. unfold loaded, load_benchmark_results, benchmark_data.
  split; [apply keys_fold_setitem_nodup; constructor|].
  split.
  { rewrite keys_fold_setitem. simpl.
    generalize (@nil string).
    induction files as [|f files IH]; intros seen; simpl; [lia|].
    destruct (in_dec string_dec (benchmark_name f) seen); simpl.
    - specialize (IH seen). lia.
    - specialize (IH (seen ++ [benchmark_name f])). lia. }
  split; [apply in_keys_fold_setitem|].
  split.
  { rewrite get_fold_setitem. now destruct (find _ (rev files)). }
  intros rs.
  split; [apply keys_fold_setitem_nodup; constructor|].
  split; [apply in_keys_fold_setitem|].
  rewrite get_fold_setitem. now destruct (find _ (rev rs)).
Qed.

End LookupFacts.

(** ** Pairing and the series *)

Section SeriesFacts.

Local Open Scope float_scope.

Lemma find_is_some {A : Type} (f : A -> bool) (l : list A) :
  (exists a, find f l = Some a) <-> exists a, In a l /\ f a = true.
Proof.
  split.
  - intros [a Ha]. apply find_some in Ha. eauto.
  - intros [a [Ha Hf]]. destruct (find f l) as [b|] eqn:E; [eauto|].
    rewrite (find_none _ _ E a Ha) in Hf. discriminate.
Qed.

Lemma group_pair_some (group : dict stats) :
  (exists p, group_pair group = Some p) <->
  (exists n, In n (keys group) /\ is_sstr n = true) /\
  (exists n, In n (keys group) /\ is_std n = true).
Proof.
  unfold group_pair. rewrite find_impls_spec.
  assert (Hin : forall f n, find f (rev (keys group)) = Some n ->
            In n (keys group) /\ f n = true).
  { intros f n H. apply find_some in H as [H1 H2].
    split; [now apply in_rev | exact H2]. }
  split.
  - intros [p Hp].
    destruct (find is_sstr _) as [sn|] eqn:Es; [|discriminate].
    destruct (find is_std _) as [dn|] eqn:Ed; [|discriminate].
    split; [exists sn | exists dn]; now apply Hin.
  - intros [[sn [Hs1 Hs2]] [dn [Hd1 Hd2]]].
    destruct (proj2 (find_is_some is_sstr (rev (keys group)))) as [sn' Es].
    { exists sn. split; [now apply -> in_rev | exact Hs2]. }
    destruct (proj2 (find_is_some is_std (rev (keys group)))) as [dn' Ed].
    { exists dn. split; [now apply -> in_rev | exact Hd2]. }
    rewrite Es, Ed.
    destruct (Hin _ _ Es) as [Hs _], (Hin _ _ Ed) as [Hd _].
    apply get_some_in in Hs as [s ->]. apply get_some_in in Hd as [d ->].
    eauto.
Qed.

Lemma group_pair_inv (group : dict stats) (p : float * float) :
  group_pair group = Some p ->
  exists sstr_impl std_impl s d,
    find is_sstr (rev (keys group)) = Some sstr_impl /\
    find is_std (rev (keys group)) = Some std_impl /\
    get sstr_impl group = Some s /\ get std_impl group = Some d /\
    p = (s_mean s * 1000, s_mean d * 1000).
Proof.
  unfold group_pair. rewrite find_impls_spec. intros Hp.
  destruct (find is_sstr _) as [sn|]; [|discriminate].
  destruct (find is_std _) as [dn|]; [|discriminate].
  destruct (get sn group) as [s|] eqn:Hs; [|discriminate].
  destruct (get dn group) as [d|] eqn:Hd; [|discriminate].
  injection Hp as <-. now exists sn, dn, s, d.
Qed.

(** X4. One turn of the collection loop, on a benchmark that is a key of
    the results, always appends the label; it appends a height to each of
    the two series exactly when one implementation name of the group
    contains "sstr" and one contains "std" without containing "sstr"; the
    heights are then the means, times 1000, of the last such names among
    the keys of the group; otherwise the two series are left as they
    were. *)
Theorem group_paired_iff (results : dict (dict stats)) (acc : series)
    (benchmark : string) (group : dict stats) :
  get benchmark results = Some group ->
  let paired :=
    (exists n, In n (keys group) /\ PyStr.contains "sstr" n = true) /\
    (exists n, In n (keys group) /\ PyStr.contains "sstr" n = false /\
               PyStr.contains "std" n = true) in
  exists acc',
    collect_step results acc benchmark = Ok acc' /\
    x_labels acc' = x_labels acc ++ [label_of benchmark] /\
    (paired ->
       exists sstr_impl std_impl s d,
         find (PyStr.contains "sstr") (rev (keys group)) = Some sstr_impl /\
         find (fun n => negb (PyStr.contains "sstr" n)
                        && PyStr.contains "std" n) (rev (keys group))
           = Some std_impl /\
         get sstr_impl group = Some s /\ get std_impl group = Some d /\
         sstr_means acc' = sstr_means acc ++ [s_mean s * 1000] /\
         std_means acc' = std_means acc ++ [s_mean d * 1000]) /\
    (~ paired ->
       sstr_means acc' = sstr_means acc /\ std_means acc' = std_means acc).
Proof.
  intros Hg paired.
  assert (Hpaired : paired <-> exists p, group_pair group = Some p).
  { rewrite group_pair_some. unfold paired, is_sstr, is_std.
    split; intros [Hs [n [Hn Ht]]]; (split; [exact Hs|]); exists n;
      (split; [exact Hn|]).
    - destruct Ht as [H1 H2]. now rewrite H1, H2.
    - apply andb_true_iff in Ht as [H1 H2].
      now apply negb_true_iff in H1. }
  rewrite (collect_step_spec _ _ _ _ Hg). eexists. split; [reflexivity|].
  cbn [x_labels sstr_means std_means]. split; [reflexivity|].
  destruct (group_pair group) as [p|] eqn:Hp.
  - split.
    + intros _. destruct (group_pair_inv _ _ Hp)
        as (sn & dn & s & d & H1 & H2 & H3 & H4 & ->).
      exists sn, dn, s, d. repeat split; assumption.
    + intros Hn. exfalso. apply Hn, Hpaired. eauto.
  - split.
    + intros H. apply Hpaired in H as [p H]. discriminate.
    + intros _. now rewrite !app_nil_r.
Qed.

(** A benchmark that is no key of the results stops the collection. *)
Lemma collect_missing (results : dict (dict stats)) (benchmarks : list string)
    (acc : series) (b : string) :
  In b benchmarks -> ~ In b (keys results) ->
  collect results benchmarks acc = Raise KeyError.
Proof.
  revert acc. induction benchmarks as [|b0 bs IH]; intros acc Hb Hn;
    [contradiction|].
  cbn [collect].
  destruct (get b0 results) as [group|] eqn:Hg.
  - rewrite (collect_step_spec _ _ _ _ Hg). cbn [bind].
    apply IH; [|exact Hn]. destruct Hb as [->|Hb]; [|exact Hb].
    exfalso. apply Hn. apply get_some_in. eauto.
  - unfold collect_step, getitem. now rewrite Hg.
Qed.

Lemma collect_ok_keys (results : dict (dict stats)) (benchmarks : list string)
    (acc s : series) :
  collect results benchmarks acc = Ok s ->
  forall b, In b benchmarks -> In b (keys results).
Proof.
  intros H b Hb.
  destruct (in_dec string_dec b (keys results)) as [Hin|Hn]; [exact Hin|].
  rewrite (collect_missing _ _ _ _ Hb Hn) in H. discriminate.
Qed.

Lemma retained_length (results : dict (dict stats)) (benchmarks : list string) :
  List.length (retained results benchmarks) <= List.length benchmarks /\
  (List.length (retained results benchmarks) = List.length benchmarks <->
   forall b, In b benchmarks ->
     exists group p, get b results = Some group /\ group_pair group = Some p).
Proof.
  induction benchmarks as [|b bs [IHle IHeq]]; simpl.
  - split; [lia|]. split; [intros _ b [] | reflexivity].
  - rewrite length_app.
    destruct (get b results) as [group|] eqn:Hg;
      [destruct (group_pair group) as [p|] eqn:Hp|]; simpl.
    + split; [lia|]. split.
      * intros H b' [<-|Hb']; [eauto|]. apply IHeq; [lia | exact Hb'].
      * intros H. f_equal. apply IHeq. intros b' Hb'. apply H. now right.
    + split; [lia|]. split; [lia|].
      intros H. destruct (H b (or_introl eq_refl)) as [g [p [Hg' Hp']]].
      congruence.
    + split; [lia|]. split; [lia|].
      intros H. destruct (H b (or_introl eq_refl)) as [g [p [Hg' _]]].
      congruence.
Qed.

(** X5. When the collection loop ends, there is one label per benchmark, in
    order, and the two series have the same length, at most the number of
    labels; bars and labels are as many exactly when every benchmark of the
    panel is a retained group. *)
Theorem series_lengths (results : dict (dict stats)) (benchmarks : list string)
    (s : series) :
  collect results benchmarks empty_series = Ok s ->
  x_labels s = map label_of benchmarks /\
  sstr_means s = map fst (retained results benchmarks) /\
  std_means s = map snd (retained results benchmarks) /\
  List.length (sstr_means s) = List.length (std_means s) /\
  (List.length (sstr_means s) <= List.length (x_labels s))%nat /\
  (List.length (sstr_means s) = List.length (x_labels s) <->
   forall b, In b benchmarks ->
     exists group p, get b results = Some group /\ group_pair group = Some p).
Proof.
  intros H. assert (Hk := collect_ok_keys _ _ _ _ H).
  rewrite (collect_spec _ _ _ Hk) in H. injection H as <-. simpl.
  rewrite !length_map.
  destruct (retained_length results benchmarks) as [Hle Heq].
  repeat (split; [reflexivity || exact Hle|]). exact Heq.
Qed.

(** X6. A benchmark name that is no key of the results makes the panel
    function raise [KeyError], before anything is drawn, whatever the
    other groups hold. *)
Theorem plot_missing_benchmark (ax : axes) (results : dict (dict stats))
    (benchmarks : list string) (title : string) (b : string) :
  In b benchmarks -> ~ In b (keys results) ->
  _plot_benchmark_group ax results benchmarks title = Raise KeyError.
Proof.
  intros Hb Hn. unfold _plot_benchmark_group.
  now rewrite (collect_missing _ _ _ _ Hb Hn).
Qed.

End SeriesFacts.

(** ** The panel and the run, as a whole *)

Section RunFacts.

Local Open Scope float_scope.

(** X7. The panel function, when every benchmark named is a key of the
    results. With one position per benchmark (retained or not) and one
    height per retained group, it raises [ValueError] in [ax.bar] when the
    two lengths do not broadcast; otherwise it raises [ZeroDivisionError]
    when a retained group has a zero std height; otherwise it keeps the
    calls already made on the axis and adds, in this order: the sstr bars
    and the std bars, moved by half the width to the left and to the right
    of each position; one annotation per retained group; the title, the y
    label, one tick per benchmark with its label, the legend and the
    grid. *)
Theorem panel_calls (ax : axes) (results : dict (dict stats))
    (benchmarks : list string) (title : string) :
  (forall b, In b benchmarks -> In b (keys results)) ->
  let ps := retained results benchmarks in
  let x := seq 0 (List.length benchmarks) in
  _plot_benchmark_group ax results benchmarks title =
    (if (List.length benchmarks =? List.length ps)%nat
        || (List.length benchmarks =? 1)%nat || (List.length ps =? 1)%nat
     then
       if forallb (fun p => negb (snd p =? 0)) ps
       then
         Ok (ax
             ++ [bar (map (fun i => PyFloat.of_nat i - 0.35 / 2) x)
                     (map fst ps) 0.35 "sstr" blue 0.7;
                 bar (map (fun i => PyFloat.of_nat i + 0.35 / 2) x)
                     (map snd ps) 0.35 "std" orange 0.7]
             ++ map (fun i =>
                       let (s, d) := nth i ps (0, 0) in
                       text i ((if s <? d then d else s) + 0.05)
                            (PyFloat.format_1f ((s - d) / d * 100) ++ "%")%string
                            (if (s - d) / d * 100 <? 0 then green else red))
                    (seq 0 (List.length ps))
             ++ [set_title title;
                 set_ylabel "Mean execution time (ms)";
                 set_xticks x;
                 set_xticklabels (map label_of benchmarks);
                 legend;
                 grid "y" "--" 0.7])
       else Raise ZeroDivisionError
     else Raise ValueError) /\
  (PyFloat.of_nat 0 = 0 /\ PyFloat.of_nat 1 = 1 /\ PyFloat.of_nat 2 = 2 /\
   PyFloat.of_nat 10 = 10) /\
  (PyFloat.format_1f ((1 - 2) / 2 * 100) = "-50.0"%string /\
   PyFloat.format_1f ((4 - 3) / 3 * 100) = "33.3"%string).
Proof.
  intros Hkeys ps x.
  split; [|repeat split; vm_compute; reflexivity].
  rewrite (plot_spec ax results benchmarks title Hkeys). fold ps.
  unfold panel_outcome. rewrite length_map.
  change (broadcasts (List.length benchmarks) (List.length ps))
    with ((List.length benchmarks =? List.length ps)%nat
          || (List.length benchmarks =? 1)%nat || (List.length ps =? 1)%nat).
  destruct (_ || _ || _); [|reflexivity].
  change (forallb (fun p => negb (snd p =? 0)) ps)
    with (forallb nonzero_std ps).
  destruct (forallb nonzero_std ps); [|reflexivity].
  unfold drawn_panel. rewrite length_map. fold x.
  rewrite (map_ext (fun i => annotation i (nth i ps (0, 0)))
             (fun i =>
                let (s, d) := nth i ps (0, 0) in
                text i ((if s <? d then d else s) + 0.05)
                     (PyFloat.format_1f ((s - d) / d * 100) ++ "%")%string
                     (if (s - d) / d * 100 <? 0 then green else red))).
  - reflexivity.
  - intros i. unfold annotation. now destruct (nth i ps (0, 0)).
Qed.

(** X8. The run as a whole. The three panels are drawn in turn from the
    sorted copy, append and format groups, and the first one that fails
    stops the run: with [ValueError] when its numbers of benchmarks and of
    retained groups do not broadcast, with [ZeroDivisionError] when they do
    and a retained group has a zero std height. When the three panels are
    drawn, the figure is laid out and written: what that raises stops the
    run, and otherwise the run returns the three panels, the path saved to
    and the confirmation line. The run itself raises nothing else: every
    benchmark it hands to a panel is a key of the results. *)
Theorem run_outcome (savefig : list axes -> string -> option exn)
    (results : dict (dict stats)) (output_filename : string) :
  let benchmarks := PyStr.sorted (keys results) in
  let copy_benchmarks := filter (PyStr.startswith "results_copy") benchmarks in
  let append_benchmarks := filter (PyStr.startswith "results_append") benchmarks in
  let format_benchmarks := filter (PyStr.startswith "results_format") benchmarks in
  let panel title bs :=
    if broadcasts (List.length bs) (List.length (retained results bs)) then
      if forallb (fun p => negb (snd p =? 0)) (retained results bs)
      then Ok (drawn_panel title (map label_of bs) (retained results bs))
      else Raise ZeroDivisionError
    else Raise ValueError in
  create_comparison_plot savefig results output_filename =
    (a0 <- panel "String Copy Performance"%string copy_benchmarks ;;
     a1 <- panel "String Append Performance"%string append_benchmarks ;;
     a2 <- panel "String Format Performance"%string format_benchmarks ;;
     match savefig [a0; a1; a2] output_filename with
     | Some e => Raise e
     | None =>
         Ok {| panels := [a0; a1; a2];
               saved_to := output_filename;
               stdout := ("Plot saved to " ++ output_filename)%string |}
     end) /\
  (forall e,
     create_comparison_plot savefig results output_filename = Raise e ->
     e = ValueError \/ e = ZeroDivisionError \/
     exists ps, savefig ps output_filename = Some e) /\
  (forall fig,
     create_comparison_plot savefig results output_filename = Ok fig ->
     savefig (panels fig) output_filename = None /\
     panels fig =
       [drawn_panel "String Copy Performance" (map label_of copy_benchmarks)
          (retained results copy_benchmarks);
        drawn_panel "String Append Performance" (map label_of append_benchmarks)
          (retained results append_benchmarks);
        drawn_panel "String Format Performance" (map label_of format_benchmarks)
          (retained results format_benchmarks)] /\
     saved_to fig = output_filename /\
     stdout fig = ("Plot saved to " ++ output_filename)%string).
Proof.
  intros benchmarks copy_benchmarks append_benchmarks format_benchmarks panel.
  assert (Hpanel : forall title bs,
            panel title bs =
            panel_outcome title (map label_of bs) (retained results bs)).
  { intros title bs. unfold panel, panel_outcome. now rewrite length_map. }
  assert (Hcases : forall title bs,
            (exists a, panel title bs = Ok a /\
                       a = drawn_panel title (map label_of bs)
                             (retained results bs)) \/
            panel title bs = Raise ValueError \/
            panel title bs = Raise ZeroDivisionError).
  { intros title bs. unfold panel.
    destruct (broadcasts _ _); [|now right; left].
    destruct (forallb _ _); [left; eauto | now right; right]. }
  assert (H : create_comparison_plot savefig results output_filename =
    (a0 <- panel "String Copy Performance"%string copy_benchmarks ;;
     a1 <- panel "String Append Performance"%string append_benchmarks ;;
     a2 <- panel "String Format Performance"%string format_benchmarks ;;
     match savefig [a0; a1; a2] output_filename with
     | Some e => Raise e
     | None =>
         Ok {| panels := [a0; a1; a2];
               saved_to := output_filename;
               stdout := ("Plot saved to " ++ output_filename)%string |}
     end)).
  { unfold create_comparison_plot, group_benchmarks.
    rewrite !plot_spec by apply category_in_keys.
    fold benchmarks. fold copy_benchmarks append_benchmarks format_benchmarks.
    rewrite !Hpanel.
    destruct (panel_outcome _ (map label_of copy_benchmarks) _);
      [|reflexivity].
    destruct (panel_outcome _ (map label_of append_benchmarks) _);
      [|reflexivity].
    destruct (panel_outcome _ (map label_of format_benchmarks) _);
      reflexivity. }
  split; [exact H|]. rewrite H.
  destruct (Hcases "String Copy Performance"%string copy_benchmarks)
    as [[a0 [-> ->]]|[->| ->]];
    [|split; [intros e E; injection E as <-; tauto | discriminate]..].
  destruct (Hcases "String Append Performance"%string append_benchmarks)
    as [[a1 [-> ->]]|[->| ->]];
    [|split; [intros e E; injection E as <-; tauto | discriminate]..].
  destruct (Hcases "String Format Performance"%string format_benchmarks)
    as [[a2 [-> ->]]|[->| ->]];
    [|split; [intros e E; injection E as <-; tauto | discriminate]..].
  cbn [bind].
  destruct (savefig _ output_filename) as [e0|] eqn:Es.
  - split; [|discriminate]. intros e E. injection E as <-. eauto.
  - split; [discriminate|]. intros fig E. injection E as <-. now repeat split.
Qed.

Lemma filter_none {A : Type} (f : A -> bool) (l : list A) :
  (forall a, In a l -> f a = false) -> filter f l = [].
Proof.
  induction l as [|a l IH]; intros H; simpl; [reflexivity|].
  rewrite (H a) by now left. apply IH. intros b Hb. apply H. now right.
Qed.

(** X9. When no group name starts with one of the three prefixes, and so
    when no file was matched at all, no panel fails, whatever the groups
    hold: each panel has its two bar calls with no position and no height,
    no annotation, no tick and no label; the run then succeeds when the
    figure can be laid out and written, and raises what that raises
    otherwise. *)
Theorem no_category_empty_panels (savefig : list axes -> string -> option exn)
    (results : dict (dict stats)) (output_filename : string) :
  (forall k, In k (keys results) ->
     PyStr.startswith "results_copy" k = false /\
     PyStr.startswith "results_append" k = false /\
     PyStr.startswith "results_format" k = false) ->
  create_comparison_plot savefig results output_filename =
  match savefig [empty_panel "String Copy Performance";
                 empty_panel "String Append Performance";
                 empty_panel "String Format Performance"] output_filename with
  | Some e => Raise e
  | None =>
      Ok {| panels := [empty_panel "String Copy Performance";
                       empty_panel "String Append Performance";
                       empty_panel "String Format Performance"];
            saved_to := output_filename;
            stdout := ("Plot saved to " ++ output_filename)%string |}
  end.
Proof.
  intros H.
  assert (Hnil : forall f,
            (forall k, In k (keys results) -> f k = false) ->
            filter f (PyStr.sorted (keys results)) = []).
  { intros f Hf. apply filter_none. intros k Hk. apply Hf.
    eapply Permutation_in; [apply sorted_perm | exact Hk]. }
  unfold create_comparison_plot, group_benchmarks.
  rewrite !Hnil by (intros k Hk; now apply H in Hk).
  reflexivity.
Qed.

(** The panel function and the run read the results through lookups and
    through the set of keys only. *)
Lemma collect_ext (r r' : dict (dict stats)) (benchmarks : list string)
    (acc : series) :
  (forall k, get k r = get k r') ->
  collect r benchmarks acc = collect r' benchmarks acc.
Proof.
  intros Hget. revert acc.
  induction benchmarks as [|b bs IH]; intros acc; [reflexivity|].
  cbn [collect].
  replace (collect_step r acc b) with (collect_step r' acc b)
    by (unfold collect_step, getitem; now rewrite Hget).
  destruct (collect_step r' acc b); [apply IH | reflexivity].
Qed.

Lemma create_comparison_plot_ext (savefig : list axes -> string -> option exn)
    (r r' : dict (dict stats)) (output_filename : string) :
  (forall k, get k r = get k r') -> Permutation (keys r) (keys r') ->
  create_comparison_plot savefig r output_filename =
  create_comparison_plot savefig r' output_filename.
Proof.
  intros Hget Hperm.
  assert (Hsorted : PyStr.sorted (keys r) = PyStr.sorted (keys r')).
  { apply sorted_unique; try apply sorted_sorted.
    rewrite !sorted_perm. exact Hperm. }
  unfold create_comparison_plot, group_benchmarks, _plot_benchmark_group.
  rewrite Hsorted. now rewrite !(collect_ext r r') by exact Hget.
Qed.

Lemma load_permuted (files files' : list result_file) :
  NoDup (map benchmark_name files) -> Permutation files files' ->
  (forall k, get k (load_benchmark_results files') =
             get k (load_benchmark_results files)) /\
  Permutation (keys (load_benchmark_results files'))
              (keys (load_benchmark_results files)).
Proof.
  intros Hnd Hperm.
  assert (Hnd' : NoDup (map benchmark_name files')).
  { eapply Permutation_NoDup; [|exact Hnd]. now apply Permutation_map. }
  unfold load_benchmark_results. split.
  - intros k.
    destruct (find (fun f => (benchmark_name f =? k)%string) files)
      as [f|] eqn:E.
    + apply find_some in E as [Hf Hk]. apply String.eqb_eq in Hk. subst k.
      rewrite (get_fold_setitem_in benchmark_name
                 (fun f => benchmark_data (results f)) files f Hnd Hf).
      apply (get_fold_setitem_in benchmark_name
               (fun f => benchmark_data (results f)) files' f Hnd').
      eapply Permutation_in; eassumption.
    + assert (Hno : forall a, In a files -> benchmark_name a <> k).
      { intros a Ha. apply String.eqb_neq. exact (find_none _ _ E a Ha). }
      rewrite !get_fold_setitem_none; trivial.
      intros a Ha. apply Hno. eapply Permutation_in; [|exact Ha].
      now symmetry.
  - rewrite !keys_fold_setitem_distinct by assumption. simpl.
    symmetry. now apply Permutation_map.
Qed.

(** X10. The outcome does not depend on the order in which the files were
    listed: for result files with pairwise distinct group names, loading
    them in any other order and plotting gives the same outcome, the same
    panels with the same bars, labels and annotations or the same error,
    whatever laying out and writing the figure does. *)
Theorem main_order_independent (savefig : list axes -> string -> option exn)
    (files files' : list result_file) :
  NoDup (map benchmark_name files) -> Permutation files files' ->
  main savefig files' = main savefig files /\
  (forall output_filename,
     create_comparison_plot savefig (load_benchmark_results files')
       output_filename =
     create_comparison_plot savefig (load_benchmark_results files)
       output_filename).
Proof.
  intros Hnd Hperm.
  destruct (load_permuted files files' Hnd Hperm) as [Hget Hkeys].
  split; [unfold main|intros output_filename];
    now apply create_comparison_plot_ext.
Qed.

End RunFacts.

(** ** The further statements at concrete inputs *)

Section MoreInstances.

Local Open Scope float_scope.

Lemma benchmark_name_spec_witness :
  benchmark_name {| filename := "out/results_copy_small.json"; results := [] |} =
  "results_copy_small"%string.
Proof.
  apply (benchmark_name_spec "results_copy_small" "json"
           "out/results_copy_small.json" []); try reflexivity.
  right. now exists "out"%string.
Defined.

Lemma series_lengths_witness :
  x_labels {| x_labels := ["small"%string]; sstr_means := []; std_means := [] |} =
  map label_of ["results_copy_small"%string].
Proof.
  apply (series_lengths (load_benchmark_results [file_sstr_only])
           ["results_copy_small"%string]
           {| x_labels := ["small"%string]; sstr_means := []; std_means := [] |}).
  reflexivity.
Defined.

Lemma plot_missing_benchmark_witness :
  _plot_benchmark_group [] (load_benchmark_results [file_sstr_faster])
    ["results_copy_small"; "results_copy_big"]%string
    "String Copy Performance" = Raise KeyError.
Proof.
  apply (plot_missing_benchmark [] (load_benchmark_results [file_sstr_faster])
           ["results_copy_small"; "results_copy_big"]%string
           "String Copy Performance" "results_copy_big"%string).
  - right. now left.
  - vm_compute. intros [H|[]]. discriminate H.
Defined.

Lemma load_lookup_witness :
  get "results_copy_x"%string (load_benchmark_results files_same_stem) =
    Some (benchmark_data [sstr_first; sstr_second; std_only]) /\
  get "sstr_x"%string (benchmark_data [sstr_first; sstr_second; std_only]) =
    Some {| s_mean := 0.002; s_stddev := 0.0002;
            s_min := 0.0018; s_max := 0.0025 |} /\
  get "std_y"%string (benchmark_data [sstr_first; sstr_second; std_only]) = None.
Proof.
  destruct (load_lookup files_same_stem "results_copy_x" "sstr_x")
    as [_ [_ [_ [H4 H5]]]].
  destruct (load_lookup files_same_stem "results_copy_x" "std_y")
    as [_ [_ [_ [_ H6]]]].
  split; [exact H4|]. split.
  - exact (proj2 (proj2 (H5 [sstr_first; sstr_second; std_only]))).
  - exact (proj2 (proj2 (H6 [sstr_first; sstr_second; std_only]))).
Defined.

Lemma group_paired_iff_witness :
  exists acc',
    collect_step (load_benchmark_results [file_sstr_faster]) empty_series
      "results_copy_small" = Ok acc' /\
    x_labels acc' = ["small"%string] /\
    sstr_means acc' = [1] /\ std_means acc' = [2].
Proof.
  destruct (group_paired_iff (load_benchmark_results [file_sstr_faster])
              empty_series "results_copy_small"
              (benchmark_data (results file_sstr_faster)) eq_refl)
    as [acc' [H1 [H2 [H3 _]]]].
  destruct H3 as (sn & dn & s & d & F1 & F2 & G1 & G2 & S1 & S2).
  { split.
    - exists "sstr_copy_small"%string. split; [now left | reflexivity].
    - exists "std_copy_small"%string.
      split; [right; now left | split; reflexivity]. }
  vm_compute in F1, F2. injection F1 as <-. injection F2 as <-.
  vm_compute in G1, G2. injection G1 as <-. injection G2 as <-.
  exists acc'. split; [exact H1|]. split; [exact H2|].
  split; [rewrite S1 | rewrite S2]; reflexivity.
Defined.

Lemma panel_calls_witness :
  _plot_benchmark_group [] (load_benchmark_results files_mixed)
    ["results_copy_a"; "results_copy_b"; "results_copy_c"]%string
    "String Copy Performance" = Raise ValueError.
Proof.
  apply (panel_calls [] (load_benchmark_results files_mixed)
           ["results_copy_a"; "results_copy_b"; "results_copy_c"]%string
           "String Copy Performance").
  intros b Hb. vm_compute. simpl in Hb. intuition.
Defined.

Lemma run_outcome_witness :
  create_comparison_plot savefig_ok (load_benchmark_results files_mixed)
    "out.png" = Raise ValueError /\
  create_comparison_plot savefig_ok (load_benchmark_results [file_zero_std])
    "out.png" = Raise ZeroDivisionError /\
  create_comparison_plot savefig_fails
    (load_benchmark_results [file_sstr_faster]) "out.png" = Raise OSError /\
  match create_comparison_plot savefig_ok
          (load_benchmark_results [file_sstr_faster; file_append]) "out.png"
  with
  | Ok fig =>
      map texts (panels fig) =
        [[text 0 (2 + 0.05) "-50.0%" green];
         [text 0 (4 + 0.05) "33.3%" red];
         []] /\
      stdout fig = "Plot saved to out.png"%string
  | Raise _ => False
  end.
Proof.
  split; [|split; [|split]].
  - exact (proj1 (run_outcome savefig_ok (load_benchmark_results files_mixed)
                    "out.png")).
  - exact (proj1 (run_outcome savefig_ok
                    (load_benchmark_results [file_zero_std]) "out.png")).
  - exact (proj1 (run_outcome savefig_fails
                    (load_benchmark_results [file_sstr_faster]) "out.png")).
  - rewrite (proj1 (run_outcome savefig_ok
                      (load_benchmark_results [file_sstr_faster; file_append])
                      "out.png")).
    vm_compute. split; reflexivity.
Defined.

Lemma no_category_empty_panels_witness :
  create_comparison_plot savefig_ok (load_benchmark_results [file_other])
    "out.png" =
  Ok {| panels := [empty_panel "String Copy Performance";
                   empty_panel "String Append Performance";
                   empty_panel "String Format Performance"];
        saved_to := "out.png";
        stdout := "Plot saved to out.png" |}.
Proof.
  apply (no_category_empty_panels savefig_ok
           (load_benchmark_results [file_other]) "out.png").
  intros k Hk. vm_compute in Hk. destruct Hk as [<-|[]].
  repeat split.
Defined.

Lemma main_order_independent_witness :
  main savefig_ok [file_append; file_sstr_faster] =
  main savefig_ok [file_sstr_faster; file_append].
Proof.
  apply (main_order_independent savefig_ok [file_sstr_faster; file_append]
           [file_append; file_sstr_faster]).
  - vm_compute. repeat constructor; simpl; intuition discriminate.
  - apply perm_swap.
Defined.

End MoreInstances.
